(** * SNIST dataset pipeline (snist/dataset.py): acquisition, conversion,
      cache and indexed access.

    The Python module is embedded shallowly.  Pure code becomes functions
    into [result]; code that touches the file system, the network, stdout
    or the warnings machinery becomes a computation in the monad [M], which
    threads a [world] and may raise a Python exception.  The interpreter,
    [os], [numpy], [torch] and [torchvision]'s [download_url] are not part
    of the repository: they are given small executable models here, each
    documented where it is defined. *)

From Stdlib Require Import ZArith Ascii String List Lia.
From Stdlib Require Strings.Byte.
From stdpp Require Import base option list gmap strings pretty.

Set Default Proof Using "Type".

(** ** Python exceptions and results *)

Module Py.

Inductive errno := EEXIST | ENOENT | ENOTDIR | EISDIR.

(** The exceptions the modelled code can raise.  [OSError] carries the
    errno that [makedir_exist_ok] inspects. *)
Inductive exception :=
| IndexError
| TypeError
| ValueError
| AttributeError (attr : string)
| UnboundLocalError (name : string)
| RuntimeError (msg : string)
| OSError (e : errno)
| URLError
| UnpicklingError.

Inductive result (A : Type) :=
| Ok (a : A)
| Raise (e : exception).
Arguments Ok {A} a.
Arguments Raise {A} e.

Definition rbind {A B} (r : result A) (k : A -> result B) : result B :=
  match r with
  | Ok a => k a
  | Raise e => Raise e
  end.

Definition raised {A} (r : result A) : Prop :=
  match r with Ok _ => False | Raise _ => True end.

Definition errno_eqb (a b : errno) : bool :=
  match a, b with
  | EEXIST, EEXIST | ENOENT, ENOENT | ENOTDIR, ENOTDIR | EISDIR, EISDIR => true
  | _, _ => false
  end.

End Py.
Export Py.

Declare Scope result_scope.
Delimit Scope result_scope with res.
Notation "'let?' x ':=' r 'in' k" := (rbind r (fun x => k))
  (at level 10, x name, r at level 100, k at level 200) : result_scope.

(** ** posixpath: the string functions of [os.path] the module uses *)

Module posixpath.

Definition is_sep (c : ascii) : bool := Ascii.eqb c "/".

Definition startswith_sep (s : string) : bool :=
  match s with
  | String c _ => is_sep c
  | EmptyString => false
  end.

Fixpoint endswith_sep (s : string) : bool :=
  match s with
  | EmptyString => false
  | String c EmptyString => is_sep c
  | String _ s' => endswith_sep s'
  end.

(** [os.path.join(a, b)]: an absolute [b] discards [a]; a separator is
    inserted unless [a] is empty or already ends with one. *)
Definition join (a b : string) : string :=
  if startswith_sep b then b
  else if bool_decide (a = "") || endswith_sep a then a +:+ b
  else a +:+ "/" +:+ b.

Definition join3 (a b c : string) : string := join (join a b) c.

(** [s.split('/')]. *)
Fixpoint split (s : string) : list string :=
  match s with
  | EmptyString => [""]
  | String c s' =>
      if is_sep c then "" :: split s'
      else match split s' with
           | x :: r => String c x :: r
           | [] => [String c ""]
           end
  end.

(** [s.rpartition('/')[2]]: what follows the last separator, the whole
    string when there is none. *)
Definition rpartition_tail (s : string) : string := List.last (split s) "".

Fixpoint rstrip_sep (s : string) : string :=
  match s with
  | EmptyString => ""
  | String c s' =>
      match rstrip_sep s' with
      | EmptyString => if is_sep c then "" else String c ""
      | r => String c r
      end
  end.

(** [os.path.expanduser] for the current user: a leading [~] alone or
    before a separator is replaced by the home directory; [~name] is
    left as it is (the account is not known to the model). *)
Definition expanduser (home path : string) : string :=
  match path with
  | String "~" rest =>
      if bool_decide (rest = "") || startswith_sep rest then
        let r := rstrip_sep home +:+ rest in
        if bool_decide (r = "") then "/" else r
      else path
  | _ => path
  end.

(** How the operating system reads a path: the components between
    separators, empty ones and [.] dropped, with a leading [/] component
    for an absolute path.  ([..] and symbolic links are not resolved.) *)
Definition keep_component (c : string) : bool :=
  negb (bool_decide (c = "") || bool_decide (c = ".")).

Definition components (p : string) : list string :=
  List.filter keep_component (split p).

Definition resolve (p : string) : list string :=
  (if startswith_sep p then ["/"] else []) ++ components p.

#[global] Arguments join : simpl never.
#[global] Arguments resolve : simpl never.

End posixpath.

(** ** Arrays: the part of numpy and torch the module uses *)

Module Tensor.

(** An n-dimensional array by its logical content: the shape and the
    elements in row-major order.  The same record serves for a numpy
    array and a torch tensor; memory layout and dtype are not modelled. *)
Record array (A : Type) := mk_array {
  shape : list nat;
  elems : list A
}.
Arguments mk_array {A} shape elems.
Arguments shape {A} a.
Arguments elems {A} a.

Definition prod (sh : list nat) : nat := List.fold_right Nat.mul 1 sh.

Definition numel {A} (a : array A) : nat := prod (shape a).

Definition ndim {A} (a : array A) : nat := length (shape a).

(** [a.shape[k]] for a literal [k >= 0]: tuple indexing. *)
Definition shape_item {A} (a : array A) (k : nat) : result nat :=
  match shape a !! k with
  | Some d => Ok d
  | None => Raise IndexError
  end.

(** [torch.from_numpy(a)]: same shape, same elements. *)
Definition from_numpy {A} (a : array A) : array A := a.

(** [t.view(sizes)]: same elements under a new shape; torch refuses a
    shape whose element count differs. *)
Definition view {A} (t : array A) (sizes : list nat) : result (array A) :=
  if Nat.eqb (prod sizes) (numel t) then Ok (mk_array sizes (elems t))
  else Raise (RuntimeError "shape is invalid for input size").

(** [t.float()]: elementwise cast, shape unchanged. *)
Definition float {A B} (cast : A -> B) (t : array A) : array B :=
  mk_array (shape t) (List.map cast (elems t)).

(** [len(t)]. *)
Definition len {A} (t : array A) : result nat :=
  match shape t with
  | [] => Raise TypeError
  | n :: _ => Ok n
  end.

(** A Python integer that fits the signed 64-bit index of the tensor
    library. *)
Definition fits_int64 (index : Z) : bool :=
  ((- 2 ^ 63 <=? index) && (index <? 2 ^ 63))%Z.

(** What the library raises for an index it does not accept: an integer
    that does not fit 64 bits overflows when it is unpacked
    ([ValueError]); one that fits is out of range ([IndexError]). *)
Definition index_error (index : Z) : exception :=
  if fits_int64 index then IndexError else ValueError.

(** [t[index]] for an integer [index]: the sub-array at that position of
    the leading dimension; a negative index counts from the end.  A
    dimension of a tensor fits 64 bits, so an index within the leading
    dimension does too, and the test on it comes first. *)
Definition getitem {A} (t : array A) (index : Z) : result (array A) :=
  match shape t with
  | [] => Raise (index_error index)
  | n :: rest =>
      if ((- Z.of_nat n <=? index) && (index <? Z.of_nat n))%Z then
        let j := Z.to_nat (if (index <? 0)%Z then index + Z.of_nat n else index)%Z in
        let sz := prod rest in
        Ok (mk_array rest (take sz (drop (j * sz) (elems t))))
      else Raise (index_error index)
  end.

End Tensor.
Export Tensor.

(** ** Computations: a world threaded through code that may raise *)

Module Comp.

(** A computation returns a value or raises, and leaves a world behind in
    both cases (what was done before an exception stays done). *)
Definition M (W A : Type) : Type := W -> result A * W.

Definition ret {W A} (a : A) : M W A := fun w => (Ok a, w).

Definition raise {W A} (e : exception) : M W A := fun w => (Raise e, w).

Definition bind {W A B} (c : M W A) (k : A -> M W B) : M W B :=
  fun w =>
    match c w with
    | (Ok a, w') => k a w'
    | (Raise e, w') => (Raise e, w')
    end.

Definition lift {W A} (r : result A) : M W A := fun w => (r, w).

Definition gets {W A} (f : W -> A) : M W A := fun w => (Ok (f w), w).

Definition modify {W} (f : W -> W) : M W unit := fun w => (Ok tt, f w).

(** [try: c  except exception as e: handler e]. *)
Definition try_except {W A} (c : M W A) (handler : exception -> M W A) : M W A :=
  fun w =>
    match c w with
    | (Ok a, w') => (Ok a, w')
    | (Raise e, w') => handler e w'
    end.

(** [for x in l: body x]. *)
Fixpoint for_each {W A} (l : list A) (body : A -> M W unit) : M W unit :=
  match l with
  | [] => ret tt
  | x :: l' => bind (body x) (fun _ => for_each l' body)
  end.

(** [a and b] on computations of booleans: [b] runs only if [a] is true. *)
Definition and_then {W} (a b : M W bool) : M W bool :=
  bind a (fun x => if x then b else ret false).

End Comp.
Export Comp.

Declare Scope comp_scope.
Delimit Scope comp_scope with comp.
Notation "'let!' x ':=' c 'in' k" := (bind c (fun x => k))
  (at level 10, x name, c at level 100, k at level 200) : comp_scope.
Notation "c ';;' k" := (bind c (fun _ => k))
  (at level 100, k at level 200, right associativity) : comp_scope.
Infix "&&&" := and_then (at level 40, left associativity) : comp_scope.

(** ** Byte strings as integers: [get_int] *)

Module Codec.

(** The hexadecimal digit of a value below 16, in lower case. *)
Definition hex_digit (n : N) : ascii :=
  match n with
  | 0 => "0" | 1 => "1" | 2 => "2" | 3 => "3" | 4 => "4" | 5 => "5"
  | 6 => "6" | 7 => "7" | 8 => "8" | 9 => "9" | 10 => "a" | 11 => "b"
  | 12 => "c" | 13 => "d" | 14 => "e" | _ => "f"
  end%N%char.

(** [codecs.encode(b, 'hex')]: two digits per byte, high nibble first. *)
Fixpoint hex_encode (b : list Byte.byte) : string :=
  match b with
  | [] => ""
  | x :: rest =>
      String (hex_digit (Byte.to_N x / 16))
        (String (hex_digit (Byte.to_N x mod 16)) (hex_encode rest))
  end.

(** The value of a hexadecimal digit, either case, from its character
    code: [0-9], [a-f], [A-F]. *)
Definition digit_value (c : ascii) : option Z :=
  let code := Z.of_N (N_of_ascii c) in
  if ((48 <=? code) && (code <=? 57))%Z then Some (code - 48)%Z
  else if ((97 <=? code) && (code <=? 102))%Z then Some (code - 87)%Z
  else if ((65 <=? code) && (code <=? 70))%Z then Some (code - 55)%Z
  else None.

Fixpoint int_digits (acc : Z) (s : string) : result Z :=
  match s with
  | EmptyString => Ok acc
  | String c rest =>
      match digit_value c with
      | Some d => int_digits (acc * 16 + d) rest
      | None => Raise ValueError
      end
  end.

(** [int(s, 16)] on a string of digits: the empty string and any other
    character are refused.  (Signs, prefixes, underscores and blanks, which
    [hex_encode] never produces, are not modelled.) *)
Definition int_base16 (s : string) : result Z :=
  match s with
  | EmptyString => Raise ValueError
  | _ => int_digits 0 s
  end.

End Codec.

(** [get_int(b)]. *)
Definition get_int (b : list Byte.byte) : result Z :=
  Codec.int_base16 (Codec.hex_encode b).

Definition byte_value (x : Byte.byte) : Z := Z.of_N (Byte.to_N x).

(** The number a byte string denotes, most significant byte first. *)
Definition big_endian (b : list Byte.byte) : Z :=
  fold_left (fun acc x => acc * 256 + byte_value x)%Z b 0%Z.

(** The inverse encoding, [v.to_bytes(n, 'big')], for [0 <= v < 256 ^ n]. *)
Fixpoint to_bytes (n : nat) (v : Z) : list Byte.byte :=
  match n with
  | O => []
  | S n' =>
      to_bytes n' (v / 256) ++
        [default Byte.x00 (Byte.of_N (Z.to_N (v mod 256)))]
  end.

(** ** Strings: the part of [str] that [__repr__] uses *)

Module Str.

Definition newline : ascii := "010"%char.

(** [s.split('\n')]. *)
Fixpoint lines (s : string) : list string :=
  match s with
  | EmptyString => [""]
  | String c s' =>
      if Ascii.eqb c newline then "" :: lines s'
      else match lines s' with
           | x :: r => String c x :: r
           | [] => [String c ""]
           end
  end.

(** [s.replace('\n', new)]. *)
Fixpoint replace_newline (new : string) (s : string) : string :=
  match s with
  | EmptyString => ""
  | String c s' =>
      if Ascii.eqb c newline then new +:+ replace_newline new s'
      else String c (replace_newline new s')
  end.

(** [' ' * n]. *)
Fixpoint spaces (n : nat) : string :=
  match n with
  | O => ""
  | S n' => String " " (spaces n')
  end.

(** ['{}'.format(n)] for a natural number: its decimal digits. *)
Definition of_nat (n : nat) : string := pretty n.

End Str.

(** ** The world: file system, network, home directory and trace *)

Section Pipeline.

(** The element type of the raw arrays, the element type of a float
    tensor, and the cast between them belong to numpy and torch. *)
Context {elt flt : Type} (to_float : elt -> flt).

Definition ndarray : Type := array elt.
Definition tensor : Type := array flt.

(** What a regular file holds: a numpy array file; a pair of tensors
    written by [torch.save], as [download] writes them; a single tensor
    written by [torch.save]; or other bytes, which no loader reads and
    on which [torch.load] raises [error] (a truncated entry, an empty
    file and plain text do not raise the same). *)
Inductive content :=
| Npy (a : ndarray)
| Pt (features targets : tensor)
| PtTensor (t : tensor)
| Blob (error : exception).

Inductive node :=
| Dir
| File (c : content).

(** What the process does that can be observed from outside. *)
Inductive event :=
| Mkdir (path : string)
| Fetch (url fpath : string)
| NpLoad (path : string)
| Write (path : string)
| TorchLoad (path : string)
| Print (msg : string)
| Warn (msg : string).

Record world := mk_world {
  fs : gmap (list string) node;
  net : gmap string content;
  home : string;
  log : list event
}.

Definition with_fs (f : gmap (list string) node) (w : world) : world :=
  mk_world f (net w) (home w) (log w).

Definition log_event (e : event) (w : world) : world :=
  mk_world (fs w) (net w) (home w) (log w ++ [e]).

Definition emit (e : event) : M world unit := modify (log_event e).

(** The working directory and the root directory always exist. *)
Definition is_base (k : list string) : bool :=
  match k with
  | [] => true
  | [c] => bool_decide (c = "/")
  | _ => false
  end.

Definition node_at (f : gmap (list string) node) (k : list string) : option node :=
  if is_base k then Some Dir else f !! k.

Definition print (msg : string) : M world unit := emit (Print msg).

Definition warnings_warn (msg : string) : M world unit := emit (Warn msg).

Definition os_path_exists (path : string) : M world bool :=
  gets (fun w => bool_decide (is_Some (node_at (fs w) (posixpath.resolve path)))).

Definition os_path_isfile (path : string) : M world bool :=
  gets (fun w => match node_at (fs w) (posixpath.resolve path) with
                 | Some (File _) => true
                 | _ => false
                 end).

Definition os_path_expanduser (path : string) : M world string :=
  gets (fun w => posixpath.expanduser (home w) path).

(** The ancestors of a resolved path, outermost first. *)
Definition ancestors (k : list string) : list (list string) :=
  List.map (fun n => take n k) (seq 1 (length k - 1)).

Fixpoint create_missing (ks : list (list string)) (f : gmap (list string) node)
  : result (gmap (list string) node) :=
  match ks with
  | [] => Ok f
  | k :: ks' =>
      match node_at f k with
      | Some Dir => create_missing ks' f
      | Some (File _) => Raise (OSError ENOTDIR)
      | None => create_missing ks' (<[k := Dir]> f)
      end
  end.

(** [os.makedirs(name)]: creates the missing ancestors, then the
    directory itself, which must not exist. *)
Definition os_makedirs (name : string) : M world unit :=
  let k := posixpath.resolve name in
  (let! f := gets fs in
   let! f' := lift (create_missing (ancestors k) f) in
   match node_at f' k with
   | Some _ => raise (OSError EEXIST)
   | None => modify (with_fs (<[k := Dir]> f')) ;; emit (Mkdir name)
   end)%comp.

(** [os.makedirs(name, exist_ok=True)]. *)
Definition os_makedirs_exist_ok (name : string) : M world unit :=
  (let! isdir := gets (fun w => match node_at (fs w) (posixpath.resolve name) with
                                | Some Dir => true
                                | _ => false
                                end) in
   if isdir then ret tt else os_makedirs name)%comp.

(** Opening [path] for writing and writing [c] to it. *)
Definition write_file (path : string) (c : content) : M world unit :=
  let k := posixpath.resolve path in
  (let! f := gets fs in
   match node_at f k with
   | Some Dir => raise (OSError EISDIR)
   | _ =>
       match node_at f (removelast k) with
       | Some Dir => modify (with_fs (<[k := File c]> f)) ;; emit (Write path)
       | Some (File _) => raise (OSError ENOTDIR)
       | None => raise (OSError ENOENT)
       end
   end)%comp.

Definition read_node (path : string) : M world content :=
  (let! f := gets fs in
   match node_at f (posixpath.resolve path) with
   | Some (File c) => ret c
   | Some Dir => raise (OSError EISDIR)
   | None => raise (OSError ENOENT)
   end)%comp.

(** [np.load(path)]. *)
Definition np_load (path : string) : M world ndarray :=
  (emit (NpLoad path) ;;
   let! c := read_node path in
   match c with
   | Npy a => ret a
   | _ => raise ValueError
   end)%comp.

(** [with open(path, 'wb') as f: torch.save((features, targets), f)]. *)
Definition torch_save (obj : tensor * tensor) (path : string) : M world unit :=
  write_file path (Pt obj.1 obj.2).

(** [a, b = t] for a tensor [t]: iteration yields the sub-tensors along
    the leading dimension, and there must be exactly two. *)
Definition unpack_pair (t : tensor) : result (tensor * tensor) :=
  match shape t with
  | [] => Raise TypeError
  | 2 :: _ =>
      (let? a := getitem t 0%Z in
       let? b := getitem t 1%Z in
       Ok (a, b))%res
  | _ => Raise ValueError
  end.

(** What [a, b = torch.load(f)] makes of the content of a file. *)
Definition unpickle_pair (c : content) : result (tensor * tensor) :=
  match c with
  | Pt features targets => Ok (features, targets)
  | PtTensor t => unpack_pair t
  | Npy _ => Raise UnpicklingError
  | Blob error => Raise error
  end.

(** [a, b = torch.load(path)]: the load, and the unpacking of what was
    loaded into two tensors. *)
Definition torch_load (path : string) : M world (tensor * tensor) :=
  (emit (TorchLoad path) ;;
   let! c := read_node path in
   lift (unpickle_pair c))%comp.

(** torchvision's [download_url(url, root, filename, md5=None)], in
    outline: the destination directory is created if need be, a file
    already at the destination is kept, and otherwise the URL is fetched
    and written there; an unreachable URL raises. *)
Definition download_url (url root filename : string) : M world unit :=
  let fpath := posixpath.join root filename in
  (os_makedirs_exist_ok root ;;
   let! present := os_path_isfile fpath in
   if present then print ("Using downloaded and verified file: " +:+ fpath)
   else
     emit (Fetch url fpath) ;;
     let! remote := gets (fun w => net w !! url) in
     match remote with
     | Some c => write_file fpath c
     | None => raise URLError
     end)%comp.

(** ** The module snist/dataset.py *)

(** [makedir_exist_ok(dirpath)]: [os.makedirs] with an already existing
    path tolerated; any other [OSError] is raised again. *)
Definition makedir_exist_ok (dirpath : string) : M world unit :=
  try_except (os_makedirs dirpath)
    (fun e =>
       match e with
       | OSError en => if errno_eqb en EEXIST then ret tt else raise e
       | _ => raise e
       end).

(** [read_velocity_file(path)]. *)
Definition read_velocity_file (path : string) : M world tensor :=
  (let! data := np_load path in
   ret (float to_float (from_numpy data)))%comp.

(** [read_amplitude_file(path)]. *)
Definition read_amplitude_file (path : string) : M world tensor :=
  (let! data := np_load path in
   let t := from_numpy data in
   let! d0 := lift (shape_item data 0) in
   let! d1 := lift (shape_item data 1) in
   let! d2 := lift (shape_item data 2) in
   let! v := lift (view t [d0; 1; d1; d2]) in
   ret (float to_float v))%comp.

(** Values a transform can return. *)
Inductive pyobj :=
| PyNone
| PyInt (z : Z)
| PyFloat (x : flt)
| PyStr (s : string)
| PyTensor (t : tensor).

(** An instance of the class.  [data] and [targets] are [None] until
    [__init__] has loaded a partition; the transforms are pure callables
    on a tensor, [None] when not supplied. *)
Record SNIST := mk_SNIST {
  root : string;
  transform : option (tensor -> pyobj);
  target_transform : option (tensor -> pyobj);
  train : bool;
  data : option tensor;
  targets : option tensor
}.

Definition getattr {A} (name : string) (field : option A) : result A :=
  match field with
  | Some x => Ok x
  | None => Raise (AttributeError name)
  end.

(** Reading a local variable that no branch has assigned. *)
Definition local {A} (name : string) (v : option A) : result A :=
  match v with
  | Some x => Ok x
  | None => Raise (UnboundLocalError name)
  end.

Definition urls : list string :=
  [ "https://raw.githubusercontent.com/LukasMosser/SNIST/master/data/train/train_amplitudes.npy";
    "https://raw.githubusercontent.com/LukasMosser/SNIST/master/data/train/train_velocities.npy";
    "https://raw.githubusercontent.com/LukasMosser/SNIST/master/data/test/test_amplitudes.npy";
    "https://raw.githubusercontent.com/LukasMosser/SNIST/master/data/test/test_velocities.npy";
    "https://raw.githubusercontent.com/LukasMosser/SNIST/master/data/test/test_amplitudes_noise_1.npy";
    "https://raw.githubusercontent.com/LukasMosser/SNIST/master/data/test/test_amplitudes_noise_2.npy" ].

Definition training_file : string := "training.pt".
Definition test_file_noise_0 : string := "test_noise_0.pt".
Definition test_file_noise_1 : string := "test_noise_1.pt".
Definition test_file_noise_2 : string := "test_noise_2.pt".

Definition train_labels (self : SNIST) : M world tensor :=
  (warnings_warn "train_labels has been renamed targets" ;;
   lift (getattr "targets" (targets self)))%comp.

Definition test_labels (self : SNIST) : M world tensor :=
  (warnings_warn "test_labels has been renamed targets" ;;
   lift (getattr "targets" (targets self)))%comp.

Definition train_data (self : SNIST) : M world tensor :=
  (warnings_warn "train_data has been renamed data" ;;
   lift (getattr "data" (data self)))%comp.

Definition test_data (self : SNIST) : M world tensor :=
  (warnings_warn "test_data has been renamed data" ;;
   lift (getattr "data" (data self)))%comp.

Definition raw_folder (self : SNIST) : string :=
  posixpath.join3 (root self) "SNIST" "raw".

Definition processed_folder (self : SNIST) : string :=
  posixpath.join3 (root self) "SNIST" "processed".

Definition _check_exists (self : SNIST) : M world bool :=
  (os_path_exists (posixpath.join (processed_folder self) training_file) &&&
   os_path_exists (posixpath.join (processed_folder self) test_file_noise_0) &&&
   os_path_exists (posixpath.join (processed_folder self) test_file_noise_1) &&&
   os_path_exists (posixpath.join (processed_folder self) test_file_noise_2))%comp.

Definition download (self : SNIST) : M world unit :=
  (let! cached := _check_exists self in
   if cached then ret tt
   else
     makedir_exist_ok (raw_folder self) ;;
     makedir_exist_ok (processed_folder self) ;;
     for_each urls (fun url =>
       let filename := posixpath.rpartition_tail url in
       let file_path := posixpath.join (raw_folder self) filename in
       download_url url (raw_folder self) filename) ;;
     print "Processing..." ;;
     let! train_a := read_amplitude_file (posixpath.join (raw_folder self) "train_amplitudes.npy") in
     let! train_v := read_velocity_file (posixpath.join (raw_folder self) "train_velocities.npy") in
     let training_set := (train_a, train_v) in
     let! test_a0 := read_amplitude_file (posixpath.join (raw_folder self) "test_amplitudes.npy") in
     let! test_v0 := read_velocity_file (posixpath.join (raw_folder self) "test_velocities.npy") in
     let test_set_noise_0 := (test_a0, test_v0) in
     let! test_a1 := read_amplitude_file (posixpath.join (raw_folder self) "test_amplitudes_noise_1.npy") in
     let! test_v1 := read_velocity_file (posixpath.join (raw_folder self) "test_velocities.npy") in
     let test_set_noise_1 := (test_a1, test_v1) in
     let! test_a2 := read_amplitude_file (posixpath.join (raw_folder self) "test_amplitudes_noise_2.npy") in
     let! test_v2 := read_velocity_file (posixpath.join (raw_folder self) "test_velocities.npy") in
     let test_set_noise_2 := (test_a2, test_v2) in
     torch_save training_set (posixpath.join (processed_folder self) training_file) ;;
     torch_save test_set_noise_0 (posixpath.join (processed_folder self) test_file_noise_0) ;;
     torch_save test_set_noise_1 (posixpath.join (processed_folder self) test_file_noise_1) ;;
     torch_save test_set_noise_2 (posixpath.join (processed_folder self) test_file_noise_2) ;;
     print "Done!")%comp.

(** The partition file [__init__] selects; [None] when no branch
    assigns [data_file]. *)
Definition select_data_file (is_train : bool) (noise : Z) : option string :=
  if is_train then Some training_file
  else if (noise =? 0)%Z then Some test_file_noise_0
  else if (noise =? 1)%Z then Some test_file_noise_1
  else if (noise =? 2)%Z then Some test_file_noise_2
  else None.

Definition cache_missing_message : string :=
  "Dataset not found." +:+ " You can use download=True to download it".

(** [SNIST(root, train, noise, transform, target_transform, download)]. *)
Definition __init__ (root_arg : string) (train_arg : bool) (noise : Z)
    (transform_arg target_transform_arg : option (tensor -> pyobj))
    (download_arg : bool) : M world SNIST :=
  (let! expanded := os_path_expanduser root_arg in
   let self := mk_SNIST expanded transform_arg target_transform_arg train_arg None None in
   (if download_arg then download self else ret tt) ;;
   let! cached := _check_exists self in
   if negb cached then raise (RuntimeError cache_missing_message)
   else
     let data_file := select_data_file (train self) noise in
     let! file := lift (local "data_file" data_file) in
     let! loaded := torch_load (posixpath.join (processed_folder self) file) in
     ret (mk_SNIST expanded transform_arg target_transform_arg train_arg
                   (Some loaded.1) (Some loaded.2)))%comp.

(** [self[index]]. *)
Definition __getitem__ (self : SNIST) (index : Z) : result (pyobj * pyobj) :=
  (let? d := getattr "data" (data self) in
   let? img := getitem d index in
   let? t := getattr "targets" (targets self) in
   let? target := getitem t index in
   let img := match transform self with
              | Some f => f img
              | None => PyTensor img
              end in
   let target := match target_transform self with
                 | Some g => g target
                 | None => PyTensor target
                 end in
   Ok (img, target))%res.

(** [len(self)]. *)
Definition __len__ (self : SNIST) : result nat :=
  (let? d := getattr "data" (data self) in len d)%res.

(** [repr(self)].  The text a transform prints for itself is not part of
    the model of a callable; it is supplied by [repr_callable], and [None]
    prints as [None]. *)
Definition __repr__ (repr_callable : (tensor -> pyobj) -> string) (self : SNIST)
  : result string :=
  let repr_of (f : option (tensor -> pyobj)) : string :=
    match f with
    | Some g => repr_callable g
    | None => "None"
    end in
  let nl := String Str.newline "" in
  (let fmt_str := "Dataset " +:+ "SNIST" +:+ nl in
   let? n := __len__ self in
   let fmt_str := fmt_str +:+ ("    Number of datapoints: " +:+ Str.of_nat n +:+ nl) in
   let tmp := if train self then "train" else "test" in
   let fmt_str := fmt_str +:+ ("    Split: " +:+ tmp +:+ nl) in
   let fmt_str := fmt_str +:+ ("    Root Location: " +:+ root self +:+ nl) in
   let tmp := "    Transforms (if any): " in
   let fmt_str :=
     fmt_str +:+
       (tmp +:+
        Str.replace_newline (nl +:+ Str.spaces (String.length tmp))
          (repr_of (transform self)) +:+ nl) in
   let tmp := "    Target Transforms (if any): " in
   let fmt_str :=
     fmt_str +:+
       (tmp +:+
        Str.replace_newline (nl +:+ Str.spaces (String.length tmp))
          (repr_of (target_transform self))) in
   Ok fmt_str)%res.

(** ** Vocabulary of the statements *)

(** What [np.load] finds at a node. *)
Definition npy_at (n : option node) : result ndarray :=
  match n with
  | Some (File (Npy a)) => Ok a
  | Some (File _) => Raise ValueError
  | Some Dir => Raise (OSError EISDIR)
  | None => Raise (OSError ENOENT)
  end.

(** The tensors the two conversions make of a loaded array. *)
Definition amplitude_tensor (data : ndarray) : result tensor :=
  (let? d0 := shape_item data 0 in
   let? d1 := shape_item data 1 in
   let? d2 := shape_item data 2 in
   let? v := view (from_numpy data) [d0; 1; d1; d2] in
   Ok (float to_float v))%res.

Definition velocity_tensor (data : ndarray) : tensor :=
  float to_float (from_numpy data).

(** The trace of [w'] continues the trace of [w]. *)
Definition extends (w w' : world) : Prop :=
  exists l, log w' = log w ++ l.

Definition log_monotone {A} (c : M world A) : Prop :=
  forall w r w', c w = (r, w') -> extends w w'.

(** The world after [torch_save obj path] has succeeded in [w]. *)
Definition saved (path : string) (obj : tensor * tensor) (w : world) : world :=
  log_event (Write path)
    (with_fs (<[posixpath.resolve path := File (Pt obj.1 obj.2)]> (fs w)) w).

(** What [torch.load] finds at a node. *)
Definition pt_at (n : option node) : result (tensor * tensor) :=
  match n with
  | Some (File c) => unpickle_pair c
  | Some Dir => Raise (OSError EISDIR)
  | None => Raise (OSError ENOENT)
  end.

(** The conversion of the raw file [name] of an instance, read in [w]. *)
Definition raw_array (self : SNIST) (w : world) (name : string) : result ndarray :=
  npy_at (node_at (fs w) (posixpath.resolve (posixpath.join (raw_folder self) name))).

(** The world a rebuild leaves when it starts converting in [w0] and
    every step succeeds. *)
Definition rebuilt (self : SNIST) (training_set test_set_noise_0 test_set_noise_1
    test_set_noise_2 : tensor * tensor) (w0 : world) : world :=
  let raw name := NpLoad (posixpath.join (raw_folder self) name) in
  let processed name := posixpath.join (processed_folder self) name in
  let w1 := log_event (Print "Processing...") w0 in
  let w2 := fold_left (fun w e => log_event e w)
              [raw "train_amplitudes.npy"; raw "train_velocities.npy";
               raw "test_amplitudes.npy"; raw "test_velocities.npy";
               raw "test_amplitudes_noise_1.npy"; raw "test_velocities.npy";
               raw "test_amplitudes_noise_2.npy"; raw "test_velocities.npy"] w1 in
  let w3 := saved (processed training_file) training_set w2 in
  let w4 := saved (processed test_file_noise_0) test_set_noise_0 w3 in
  let w5 := saved (processed test_file_noise_1) test_set_noise_1 w4 in
  let w6 := saved (processed test_file_noise_2) test_set_noise_2 w5 in
  log_event (Print "Done!") w6.

(** A path names something in the file system of [w]. *)
Definition entry_present (w : world) (path : string) : Prop :=
  is_Some (node_at (fs w) (posixpath.resolve path)).

(** The four processed cache entries of an instance. *)
Definition cache_entries (self : SNIST) : list string :=
  List.map (posixpath.join (processed_folder self))
    [training_file; test_file_noise_0; test_file_noise_1; test_file_noise_2].

(** The elements of an array are as many as its shape says. *)
Definition well_formed {A} (t : array A) : Prop :=
  length (elems t) = numel t.

(** A computation leaves the node [n] at [k] in place, whatever its
    outcome. *)
Definition preserves (k : list string) (n : node) {A} (c : M world A) : Prop :=
  forall w r w', c w = (r, w') ->
    node_at (fs w) k = Some n -> node_at (fs w') k = Some n.

(** The lines a transform's text takes in the output of [__repr__]: the
    first after the label, the others aligned under it. *)
Definition labelled_block (label text : string) : list string :=
  match Str.lines text with
  | first :: others =>
      (label +:+ first) :: List.map (String.append (Str.spaces (String.length label))) others
  | [] => [label]
  end.

(** The entry a well-formed choice of split and noise level selects. *)
Definition selected_file (is_train : bool) (noise : Z) : string :=
  if is_train then training_file
  else nth (Z.to_nat noise) [test_file_noise_0; test_file_noise_1] test_file_noise_2.

(** The file system is the same at [k]. *)
Definition same_at (k : list string) (w w' : world) : Prop :=
  node_at (fs w') k = node_at (fs w) k.

Definition same_net (w w' : world) : Prop := net w' = net w.

(** ** Computations step by step *)

Lemma bind_ok_inv {A B} (c : M world A) (k : A -> M world B) w b w2 :
  bind c k w = (Ok b, w2) ->
  exists a w1, c w = (Ok a, w1) /\ k a w1 = (Ok b, w2).
Proof.
  unfold bind. destruct (c w) as [[a|e] w1]; intros H.
  - exists a, w1. split; [reflexivity | exact H].
  - discriminate H.
Qed.

Lemma bind_ok {A B} (c : M world A) (k : A -> M world B) w a w1 :
  c w = (Ok a, w1) -> bind c k w = k a w1.
Proof. intros H. unfold bind. rewrite H. reflexivity. Qed.

Lemma np_load_eq path w :
  np_load path w =
    (npy_at (node_at (fs w) (posixpath.resolve path)), log_event (NpLoad path) w).
Proof.
  unfold np_load, read_node, emit, modify, gets, bind, ret, raise, npy_at. simpl.
  destruct (node_at (fs w) (posixpath.resolve path)) as [[|[a|f t|t|e]]|]; reflexivity.
Qed.

Lemma prod_insert_one (n h v : nat) : prod [n; 1; h; v] = prod [n; h; v].
Proof. unfold prod. simpl. lia. Qed.

(** ** The amplitude conversion *)

(** C1: for a source array of shape [N, H, W], whatever [N] (zero
    included), [read_amplitude_file] returns the float tensor of shape
    [N, 1, H, W] whose elements are the casts of the source elements in
    the same order; the only trace it leaves is the load. *)
Theorem read_amplitude_file_shape path w (a : ndarray) (N H W : nat) :
  node_at (fs w) (posixpath.resolve path) = Some (File (Npy a)) ->
  shape a = [N; H; W] ->
  read_amplitude_file path w =
    (Ok (mk_array [N; 1; H; W] (List.map to_float (elems a))),
     log_event (NpLoad path) w).
Proof.
  intros Hfile Hshape.
  unfold read_amplitude_file.
  rewrite (bind_ok _ _ w a (log_event (NpLoad path) w))
    by (rewrite np_load_eq, Hfile; reflexivity).
  unfold bind, lift, ret, shape_item, view, numel, from_numpy.
  rewrite Hshape. cbn [lookup list_lookup].
  rewrite prod_insert_one, Nat.eqb_refl.
  unfold float. simpl. reflexivity.
Qed.

(** C4 (as amended): the conversion fails on every source array with
    fewer than three dimensions, with the [IndexError] of the shape
    access.  With more than three it fails, in [view], exactly when the
    number of elements differs from the product of the first three
    dimensions; when they agree (trailing dimensions of extent one, or an
    empty array) it returns the tensor of shape [N, 1, H, W]. *)
Theorem read_amplitude_file_ndim path w (a : ndarray) :
  node_at (fs w) (posixpath.resolve path) = Some (File (Npy a)) ->
  ndim a <> 3 ->
  (ndim a < 3 -> (read_amplitude_file path w).1 = Raise IndexError) /\
  (forall N H W rest, shape a = N :: H :: W :: rest ->
     (prod [N; H; W] <> numel a -> raised (read_amplitude_file path w).1) /\
     (prod [N; H; W] = numel a ->
        (read_amplitude_file path w).1 =
          Ok (mk_array [N; 1; H; W] (List.map to_float (elems a))))).
Proof.
  intros Hfile Hdim.
  assert (Hload : np_load path w = (Ok a, log_event (NpLoad path) w))
    by (rewrite np_load_eq, Hfile; reflexivity).
  unfold read_amplitude_file. rewrite (bind_ok _ _ _ _ _ Hload).
  unfold bind, lift, ret, shape_item, view, from_numpy, ndim in *.
  split.
  - intros Hlt.
    destruct (shape a) as [|d0 [|d1 [|d2 rest]]]; simpl in *;
      try reflexivity; lia.
  - intros N H W rest Hshape. unfold numel. rewrite Hshape.
    cbn [lookup list_lookup]. rewrite prod_insert_one.
    split; intros Hnum.
    + apply Nat.eqb_neq in Hnum. rewrite Hnum. exact I.
    + apply Nat.eqb_eq in Hnum. rewrite Hnum. reflexivity.
Qed.

(** ** Indexed access *)

Lemma getitem_in_range {A} (t : array A) n rest (i : Z) :
  shape t = n :: rest ->
  (- Z.of_nat n <= i < Z.of_nat n)%Z ->
  getitem t i =
    Ok (mk_array rest
          (take (prod rest)
             (drop (Z.to_nat (if (i <? 0)%Z then i + Z.of_nat n else i)%Z * prod rest)
                (elems t)))).
Proof.
  intros Hshape [Hlo Hhi]. unfold getitem. rewrite Hshape.
  apply Z.leb_le in Hlo. apply Z.ltb_lt in Hhi.
  rewrite Hlo, Hhi. reflexivity.
Qed.

Lemma getitem_out_of_range {A} (t : array A) n rest (i : Z) :
  shape t = n :: rest ->
  (i < - Z.of_nat n \/ Z.of_nat n <= i)%Z ->
  getitem t i = Raise (index_error i).
Proof.
  intros Hshape Hout. unfold getitem. rewrite Hshape.
  destruct Hout as [Hlo | Hhi].
  - apply Z.leb_gt in Hlo. rewrite Hlo. reflexivity.
  - apply Z.ltb_ge in Hhi. rewrite Hhi, andb_false_r. reflexivity.
Qed.

Lemma index_error_int64 (i : Z) :
  (- 2 ^ 63 <= i < 2 ^ 63)%Z -> index_error i = IndexError.
Proof.
  intros [Hlo Hhi]. unfold index_error, fits_int64.
  apply Z.leb_le in Hlo. apply Z.ltb_lt in Hhi. rewrite Hlo, Hhi. reflexivity.
Qed.

Lemma index_error_overflow (i : Z) :
  (i < - 2 ^ 63 \/ 2 ^ 63 <= i)%Z -> index_error i = ValueError.
Proof.
  intros Hout. unfold index_error, fits_int64.
  destruct Hout as [Hlo | Hhi].
  - apply Z.leb_gt in Hlo. rewrite Hlo. reflexivity.
  - apply Z.ltb_ge in Hhi. rewrite Hhi, andb_false_r. reflexivity.
Qed.

Lemma getitem_negative {A} (t : array A) n rest (i : Z) :
  shape t = n :: rest ->
  (- Z.of_nat n <= i < 0)%Z ->
  getitem t i = getitem t (i + Z.of_nat n).
Proof.
  intros Hshape Hneg.
  rewrite (getitem_in_range t n rest i Hshape) by lia.
  rewrite (getitem_in_range t n rest (i + Z.of_nat n) Hshape) by lia.
  destruct (Z.ltb_spec i 0); [|lia].
  destruct (Z.ltb_spec (i + Z.of_nat n) 0); [lia|]. reflexivity.
Qed.

(** C2 (as amended): a ready dataset whose feature and target tensors
    both have leading dimension [N] has length [N]; [self[i]] succeeds
    for every [i] with [-N <= i < N], a negative [i] reading sample
    [N + i]; for every [i >= N] and every [i < -N] it raises [IndexError]
    when [i] fits a signed 64-bit integer, and [ValueError] (the overflow
    of the tensor library) when it does not. *)
Theorem len_getitem_bounds (self : SNIST) (d t : tensor) (N : nat) sd st :
  data self = Some d -> targets self = Some t ->
  shape d = N :: sd -> shape t = N :: st ->
  __len__ self = Ok N /\
  (forall i : Z, (- Z.of_nat N <= i < Z.of_nat N)%Z ->
     exists item, __getitem__ self i = Ok item) /\
  (forall i : Z, (- Z.of_nat N <= i < 0)%Z ->
     __getitem__ self i = __getitem__ self (i + Z.of_nat N)) /\
  (forall i : Z, (i < - Z.of_nat N \/ Z.of_nat N <= i)%Z ->
     ((- 2 ^ 63 <= i < 2 ^ 63)%Z -> __getitem__ self i = Raise IndexError) /\
     ((i < - 2 ^ 63 \/ 2 ^ 63 <= i)%Z -> __getitem__ self i = Raise ValueError)).
Proof.
  intros Hd Ht Hsd Hst.
  split; [|split; [|split]].
  - unfold __len__, len. rewrite Hd. simpl. rewrite Hsd. reflexivity.
  - intros i Hi. unfold __getitem__. rewrite Hd, Ht. simpl.
    rewrite (getitem_in_range d N sd i Hsd Hi),
            (getitem_in_range t N st i Hst Hi).
    simpl. eexists. reflexivity.
  - intros i Hi. unfold __getitem__. rewrite Hd, Ht. simpl.
    rewrite (getitem_negative d N sd i Hsd Hi),
            (getitem_negative t N st i Hst Hi).
    reflexivity.
  - intros i Hi.
    assert (Hget : __getitem__ self i = Raise (index_error i)).
    { unfold __getitem__. rewrite Hd. simpl.
      rewrite (getitem_out_of_range d N sd i Hsd Hi). reflexivity. }
    rewrite Hget. split; intros Hfit.
    + rewrite (index_error_int64 i Hfit). reflexivity.
    + rewrite (index_error_overflow i Hfit). reflexivity.
Qed.

(** C3: at a valid index [i] of a ready dataset the stored feature
    [data[i]] and target [targets[i]] exist; with [transform = f] and
    [target_transform = g] the read returns [(f(data[i]), g(targets[i]))],
    each transform seeing only its own value, and with both [None] it
    returns the two stored values as they are. *)
Theorem getitem_applies_transforms (self : SNIST) (d t : tensor) (N : nat) sd st (i : Z) :
  data self = Some d -> targets self = Some t ->
  shape d = N :: sd -> shape t = N :: st ->
  (0 <= i < Z.of_nat N)%Z ->
  exists x y,
    getitem d i = Ok x /\ getitem t i = Ok y /\
    (forall f g, transform self = Some f -> target_transform self = Some g ->
       __getitem__ self i = Ok (f x, g y)) /\
    (transform self = None -> target_transform self = None ->
       __getitem__ self i = Ok (PyTensor x, PyTensor y)).
Proof.
  intros Hd Ht Hsd Hst Hi.
  assert (Hr : (- Z.of_nat N <= i < Z.of_nat N)%Z) by lia.
  eexists. eexists.
  split; [exact (getitem_in_range d N sd i Hsd Hr)|].
  split; [exact (getitem_in_range t N st i Hst Hr)|].
  split.
  - intros f g Hf Hg. unfold __getitem__.
    rewrite Hd, Ht, Hf, Hg. simpl.
    rewrite (getitem_in_range d N sd i Hsd Hr),
            (getitem_in_range t N st i Hst Hr).
    reflexivity.
  - intros Hf Hg. unfold __getitem__.
    rewrite Hd, Ht, Hf, Hg. simpl.
    rewrite (getitem_in_range d N sd i Hsd Hr),
            (getitem_in_range t N st i Hst Hr).
    reflexivity.
Qed.

(** ** Paths of the cache *)

Lemma append_nil_l (s : string) : "" +:+ s = s.
Proof. reflexivity. Qed.

Lemma append_cons c (a b : string) : String c a +:+ b = String c (a +:+ b).
Proof. reflexivity. Qed.

Lemma append_assoc_string (a b c : string) : (a +:+ b) +:+ c = a +:+ (b +:+ c).
Proof.
  induction a as [|x a IH]; [reflexivity|].
  rewrite !append_cons, IH. reflexivity.
Qed.

Lemma split_nonempty s : posixpath.split s <> [].
Proof.
  destruct s as [|c s]; simpl; [discriminate|].
  destruct (posixpath.is_sep c); [discriminate|].
  destruct (posixpath.split s); discriminate.
Qed.

Lemma split_app_sep a b :
  posixpath.split (a +:+ String "/" b) = posixpath.split a ++ posixpath.split b.
Proof.
  induction a as [|c a IH]; [reflexivity|].
  rewrite append_cons. simpl.
  destruct (posixpath.is_sep c).
  - rewrite IH. reflexivity.
  - rewrite IH. pose proof (split_nonempty a) as Hne.
    destruct (posixpath.split a); [congruence | reflexivity].
Qed.

Lemma endswith_sep_inv a :
  posixpath.endswith_sep a = true -> exists a', a = a' +:+ "/".
Proof.
  induction a as [|c a IH]; simpl; [discriminate|].
  destruct a as [|c' a].
  - unfold posixpath.is_sep. intros Hc. apply Ascii.eqb_eq in Hc. subst c.
    exists "". reflexivity.
  - intros H. destruct (IH H) as [a' Ha']. exists (String c a').
    rewrite append_cons, <- Ha'. reflexivity.
Qed.

Lemma startswith_sep_app a b :
  a <> "" -> posixpath.startswith_sep (a +:+ b) = posixpath.startswith_sep a.
Proof. destruct a; [congruence | reflexivity]. Qed.

(** Joining a plain file name to a directory adds one component. *)
Lemma resolve_join p name :
  posixpath.startswith_sep name = false ->
  posixpath.split name = [name] ->
  posixpath.keep_component name = true ->
  posixpath.resolve (posixpath.join p name) = posixpath.resolve p ++ [name].
Proof.
  intros Hrel Hone Hkeep. unfold posixpath.join. rewrite Hrel.
  case_bool_decide as Hp; simpl.
  - subst p. unfold posixpath.resolve, posixpath.components.
    rewrite append_nil_l, Hrel, Hone. simpl. rewrite Hkeep. reflexivity.
  - destruct (posixpath.endswith_sep p) eqn:Hend.
    + destruct (endswith_sep_inv p Hend) as [q Hq].
      unfold posixpath.resolve, posixpath.components.
      rewrite (startswith_sep_app p name Hp). subst p.
      rewrite append_assoc_string.
      change ("/" +:+ name) with (String "/" name).
      change (q +:+ "/") with (q +:+ String "/" "").
      rewrite !split_app_sep, !List.filter_app, Hone. simpl.
      rewrite Hkeep, app_nil_r, app_assoc. reflexivity.
    + unfold posixpath.resolve, posixpath.components.
      rewrite (startswith_sep_app p _ Hp).
      change ("/" +:+ name) with (String "/" name).
      rewrite split_app_sep, List.filter_app, Hone. simpl.
      rewrite Hkeep, app_assoc. reflexivity.
Qed.

Lemma resolve_processed (self : SNIST) name :
  posixpath.startswith_sep name = false ->
  posixpath.split name = [name] ->
  posixpath.keep_component name = true ->
  posixpath.resolve (posixpath.join (processed_folder self) name) =
    posixpath.resolve (root self) ++ ["SNIST"; "processed"; name].
Proof.
  intros H1 H2 H3. unfold processed_folder, posixpath.join3.
  rewrite !resolve_join by (assumption || reflexivity).
  rewrite <- !app_assoc. reflexivity.
Qed.

Lemma resolve_raw (self : SNIST) name :
  posixpath.startswith_sep name = false ->
  posixpath.split name = [name] ->
  posixpath.keep_component name = true ->
  posixpath.resolve (posixpath.join (raw_folder self) name) =
    posixpath.resolve (root self) ++ ["SNIST"; "raw"; name].
Proof.
  intros H1 H2 H3. unfold raw_folder, posixpath.join3.
  rewrite !resolve_join by (assumption || reflexivity).
  rewrite <- !app_assoc. reflexivity.
Qed.

Lemma node_at_deep (f : gmap (list string) node) (pre : list string) a b c :
  node_at f (pre ++ [a; b; c]) = f !! (pre ++ [a; b; c]).
Proof. unfold node_at. destruct pre as [|x [|y pre]]; reflexivity. Qed.

(** ** The existence check *)

Lemma check_exists_spec (self : SNIST) w :
  exists b, _check_exists self w = (Ok b, w) /\
            (b = true <-> Forall (entry_present w) (cache_entries self)).
Proof.
  unfold _check_exists, and_then, bind, os_path_exists, gets, ret,
    cache_entries, entry_present.
  cbn [List.map].
  repeat case_bool_decide; eexists; (split; [reflexivity|]);
    rewrite !Forall_cons, Forall_nil; intuition congruence.
Qed.

Lemma check_exists_fst (self : SNIST) w b :
  (_check_exists self w).1 = Ok b -> _check_exists self w = (Ok b, w).
Proof.
  destruct (check_exists_spec self w) as [b' [Hb' _]]. rewrite Hb'. cbn [fst].
  intros H. injection H as <-. reflexivity.
Qed.

Lemma run_eta {A} (c : M world A) w : c w = ((c w).1, (c w).2).
Proof. destruct (c w); reflexivity. Qed.

Lemma run_ok {A} (c : M world A) w a : (c w).1 = Ok a -> c w = (Ok a, (c w).2).
Proof. intros H. rewrite <- H. apply run_eta. Qed.

Lemma download_cached (self : SNIST) w :
  _check_exists self w = (Ok true, w) -> download self w = (Ok tt, w).
Proof. intros H. unfold download. rewrite (bind_ok _ _ _ _ _ H). reflexivity. Qed.

(** ** Every step only adds to the trace *)

Lemma extends_refl w : extends w w.
Proof. exists []. rewrite app_nil_r. reflexivity. Qed.

Lemma extends_trans w1 w2 w3 : extends w1 w2 -> extends w2 w3 -> extends w1 w3.
Proof.
  intros [l1 H1] [l2 H2]. exists (l1 ++ l2).
  rewrite H2, H1, app_assoc. reflexivity.
Qed.

Lemma log_monotone_ret {A} (a : A) : log_monotone (ret a).
Proof. intros w r w' H. inversion H. apply extends_refl. Qed.

Lemma log_monotone_raise {A} e : log_monotone (raise (A:=A) e).
Proof. intros w r w' H. inversion H. apply extends_refl. Qed.

Lemma log_monotone_lift {A} (x : result A) : log_monotone (lift x).
Proof. intros w r w' H. inversion H. apply extends_refl. Qed.

Lemma log_monotone_gets {A} (f : world -> A) : log_monotone (gets f).
Proof. intros w r w' H. inversion H. apply extends_refl. Qed.

Lemma log_monotone_emit e : log_monotone (emit e).
Proof. intros w r w' H. inversion H. exists [e]. reflexivity. Qed.

Lemma log_monotone_with_fs f : log_monotone (modify (with_fs f)).
Proof. intros w r w' H. inversion H. exists []. simpl. rewrite app_nil_r. reflexivity. Qed.

Lemma log_monotone_bind {A B} (c : M world A) (k : A -> M world B) :
  log_monotone c -> (forall a, log_monotone (k a)) -> log_monotone (bind c k).
Proof.
  intros Hc Hk w r w'. unfold bind.
  destruct (c w) as [[a|e] w1] eqn:Hcw; intros H.
  - eapply extends_trans; [eapply Hc | eapply Hk]; eassumption.
  - inversion H; subst. eapply Hc; eassumption.
Qed.

Lemma log_monotone_try_except {A} (c : M world A) handler :
  log_monotone c -> (forall e, log_monotone (handler e)) ->
  log_monotone (try_except c handler).
Proof.
  intros Hc Hh w r w'. unfold try_except.
  destruct (c w) as [[a|e] w1] eqn:Hcw; intros H.
  - inversion H; subst. eapply Hc; eassumption.
  - eapply extends_trans; [eapply Hc | eapply Hh]; eassumption.
Qed.

Lemma log_monotone_for_each {A} (l : list A) (body : A -> M world unit) :
  (forall x, log_monotone (body x)) -> log_monotone (for_each l body).
Proof.
  intros Hbody. induction l as [|x l IH]; simpl.
  - apply log_monotone_ret.
  - apply log_monotone_bind; [apply Hbody | intros _; exact IH].
Qed.

Create HintDb trace discriminated.
#[local] Hint Resolve log_monotone_ret log_monotone_raise log_monotone_lift
  log_monotone_gets log_monotone_emit log_monotone_with_fs : trace.

Ltac trace_step :=
  first
    [ apply log_monotone_bind; [|intros ?]
    | match goal with
      | |- log_monotone (match ?x with _ => _ end) => destruct x
      | |- log_monotone (if ?x then _ else _) => destruct x
      end
    | solve [auto with trace] ].

Lemma log_monotone_write_file path c : log_monotone (write_file path c).
Proof. unfold write_file. repeat trace_step. Qed.

Lemma log_monotone_os_makedirs name : log_monotone (os_makedirs name).
Proof. unfold os_makedirs. repeat trace_step. Qed.

Lemma log_monotone_makedir_exist_ok dirpath : log_monotone (makedir_exist_ok dirpath).
Proof.
  unfold makedir_exist_ok. apply log_monotone_try_except.
  - apply log_monotone_os_makedirs.
  - intros e. repeat trace_step.
Qed.

Lemma log_monotone_download_url url dir filename :
  log_monotone (download_url url dir filename).
Proof.
  unfold download_url, os_makedirs_exist_ok, os_path_isfile, print.
  pose proof log_monotone_os_makedirs. pose proof log_monotone_write_file.
  repeat trace_step.
Qed.

(** ** Reading and writing, as equations *)

Lemma fs_log_event e w : fs (log_event e w) = fs w.
Proof. reflexivity. Qed.

Lemma log_log_event e w : log (log_event e w) = log w ++ [e].
Proof. reflexivity. Qed.

Lemma fs_saved path obj w :
  fs (saved path obj w) = <[posixpath.resolve path := File (Pt obj.1 obj.2)]> (fs w).
Proof. reflexivity. Qed.

Lemma log_saved path obj w : log (saved path obj w) = log w ++ [Write path].
Proof. reflexivity. Qed.

Lemma read_amplitude_file_eq path w :
  read_amplitude_file path w =
    (rbind (npy_at (node_at (fs w) (posixpath.resolve path))) amplitude_tensor,
     log_event (NpLoad path) w).
Proof.
  unfold read_amplitude_file, bind. rewrite np_load_eq.
  destruct (npy_at _) as [a|e]; [|reflexivity].
  unfold amplitude_tensor, lift, ret, rbind.
  destruct (shape_item a 0); [|reflexivity].
  destruct (shape_item a 1); [|reflexivity].
  destruct (shape_item a 2); [|reflexivity].
  destruct (view _ _); reflexivity.
Qed.

Lemma read_velocity_file_eq path w :
  read_velocity_file path w =
    (rbind (npy_at (node_at (fs w) (posixpath.resolve path)))
           (fun a => Ok (velocity_tensor a)),
     log_event (NpLoad path) w).
Proof.
  unfold read_velocity_file, bind. rewrite np_load_eq.
  destruct (npy_at _) as [a|e]; reflexivity.
Qed.

Lemma torch_load_eq path w :
  torch_load path w =
    (pt_at (node_at (fs w) (posixpath.resolve path)), log_event (TorchLoad path) w).
Proof.
  unfold torch_load, read_node, emit, modify, gets, bind, ret, raise, pt_at. simpl.
  destruct (node_at (fs w) (posixpath.resolve path)) as [[|[a|f t|t|e]]|]; reflexivity.
Qed.

Lemma torch_save_ok_inv obj path w u w' :
  torch_save obj path w = (Ok u, w') -> w' = saved path obj w.
Proof.
  unfold torch_save, write_file, bind, gets, modify, emit, raise, saved. simpl.
  destruct (node_at (fs w) (posixpath.resolve path)) as [[|c]|];
    try discriminate;
    destruct (node_at (fs w) (removelast (posixpath.resolve path))) as [[|c']|];
    try discriminate; intros H; inversion H; reflexivity.
Qed.

(** ** What a rebuild does *)

Ltac next_step H Hs :=
  apply bind_ok_inv in H; destruct H as (? & ? & Hs & H).

Ltac next_read H :=
  let Hs := fresh "Hread" in
  next_step H Hs;
  first [ rewrite read_amplitude_file_eq in Hs | rewrite read_velocity_file_eq in Hs ];
  injection Hs as Hs ?; subst;
  rewrite ?fs_log_event in Hs.

Ltac next_save H :=
  let Hs := fresh "Hsave" in
  next_step H Hs; apply torch_save_ok_inv in Hs; subst.

(** A call of [download] that finds the cache incomplete and returns
    has converted the six raw files as they were after the fetch loop,
    and left exactly the world [rebuilt] describes. *)
Lemma download_rebuild (self : SNIST) w w1 :
  _check_exists self w = (Ok false, w) ->
  download self w = (Ok tt, w1) ->
  exists w0 ta tv a0 v a1 a2,
    extends w w0 /\
    rbind (raw_array self w0 "train_amplitudes.npy") amplitude_tensor = Ok ta /\
    rbind (raw_array self w0 "train_velocities.npy")
          (fun a => Ok (velocity_tensor a)) = Ok tv /\
    rbind (raw_array self w0 "test_amplitudes.npy") amplitude_tensor = Ok a0 /\
    rbind (raw_array self w0 "test_velocities.npy")
          (fun a => Ok (velocity_tensor a)) = Ok v /\
    rbind (raw_array self w0 "test_amplitudes_noise_1.npy") amplitude_tensor = Ok a1 /\
    rbind (raw_array self w0 "test_amplitudes_noise_2.npy") amplitude_tensor = Ok a2 /\
    w1 = rebuilt self (ta, tv) (a0, v) (a1, v) (a2, v) w0.
Proof.
  intros Hcheck H. unfold download in H.
  rewrite (bind_ok _ _ _ _ _ Hcheck) in H.
  next_step H Hraw. next_step H Hprocessed. next_step H Hloop.
  next_step H Hprint. injection Hprint as _ <-.
  next_read H. next_read H. next_read H. next_read H.
  next_read H. next_read H. next_read H. next_read H.
  next_save H. next_save H. next_save H. next_save H.
  injection H as <-.
  match goal with
  | Hloop : for_each _ _ _ = (_, ?w0) |- _ => exists w0
  end.
  do 6 eexists.
  split.
  { eapply extends_trans; [eapply log_monotone_makedir_exist_ok; eassumption|].
    eapply extends_trans; [eapply log_monotone_makedir_exist_ok; eassumption|].
    eapply log_monotone_for_each; [|eassumption].
    intros url. apply log_monotone_download_url. }
  unfold raw_array.
  repeat (split; [eassumption|]).
  unfold rebuilt. cbn [fold_left].
  repeat match goal with
         | Ha : ?r = Ok ?x, Hb : ?r = Ok ?y |- _ =>
             assert (x = y) by congruence; subst y; clear Hb
         end.
  reflexivity.
Qed.

Lemma node_at_insert_present (f : gmap (list string) node) k n k' :
  k = k' \/ is_Some (node_at f k') -> is_Some (node_at (<[k := n]> f) k').
Proof.
  unfold node_at. destruct (is_base k'); [intros _; eexists; reflexivity|].
  rewrite lookup_insert_is_Some'. tauto.
Qed.

Lemma rebuilt_entries_present (self : SNIST) s0 s1 s2 s3 w0 :
  Forall (entry_present (rebuilt self s0 s1 s2 s3 w0)) (cache_entries self).
Proof.
  unfold cache_entries, entry_present, rebuilt. cbn [List.map fold_left].
  rewrite fs_log_event, !fs_saved.
  pose proof node_at_insert_present as Hin.
  repeat apply Forall_cons_2; [..|apply Forall_nil_2].
  - do 3 (apply Hin; right). apply Hin. left. reflexivity.
  - do 2 (apply Hin; right). apply Hin. left. reflexivity.
  - apply Hin; right. apply Hin. left. reflexivity.
  - apply Hin. left. reflexivity.
Qed.

Lemma rebuilt_log (self : SNIST) s0 s1 s2 s3 w0 :
  exists l,
    log (rebuilt self s0 s1 s2 s3 w0) =
      log w0 ++ l ++
        List.map Write (cache_entries self) ++ [Print "Done!"].
Proof.
  exists (Print "Processing..." ::
          List.map (fun name => NpLoad (posixpath.join (raw_folder self) name))
            ["train_amplitudes.npy"; "train_velocities.npy";
             "test_amplitudes.npy"; "test_velocities.npy";
             "test_amplitudes_noise_1.npy"; "test_velocities.npy";
             "test_amplitudes_noise_2.npy"; "test_velocities.npy"]).
  unfold rebuilt, cache_entries. cbn [List.map fold_left].
  rewrite log_log_event, !log_saved, !log_log_event, <- !app_assoc.
  reflexivity.
Qed.

Ltac distinct_keys :=
  let Heq := fresh "Heq" in
  intros Heq; apply app_inv_head in Heq; discriminate Heq.

(** The three test entries a rebuild leaves, and the raw files, which the
    writes into the processed directory do not touch. *)
Lemma rebuilt_test_entries (self : SNIST) s0 s1 s2 s3 w0 :
  let w1 := rebuilt self s0 s1 s2 s3 w0 in
  let entry name := node_at (fs w1)
    (posixpath.resolve (posixpath.join (processed_folder self) name)) in
  entry test_file_noise_0 = Some (File (Pt s1.1 s1.2)) /\
  entry test_file_noise_1 = Some (File (Pt s2.1 s2.2)) /\
  entry test_file_noise_2 = Some (File (Pt s3.1 s3.2)).
Proof.
  cbv zeta. unfold rebuilt. cbn [fold_left].
  rewrite fs_log_event, !fs_saved.
  unfold training_file, test_file_noise_0, test_file_noise_1, test_file_noise_2.
  rewrite !resolve_processed by reflexivity.
  rewrite !node_at_deep.
  repeat split.
  - rewrite lookup_insert_ne by distinct_keys.
    rewrite lookup_insert_ne by distinct_keys.
    apply lookup_insert_eq.
  - rewrite lookup_insert_ne by distinct_keys.
    apply lookup_insert_eq.
  - apply lookup_insert_eq.
Qed.

Lemma rebuilt_training_entry (self : SNIST) s0 s1 s2 s3 w0 :
  node_at (fs (rebuilt self s0 s1 s2 s3 w0))
    (posixpath.resolve (posixpath.join (processed_folder self) training_file)) =
  Some (File (Pt s0.1 s0.2)).
Proof.
  unfold rebuilt. cbn [fold_left].
  rewrite fs_log_event, !fs_saved.
  unfold training_file, test_file_noise_0, test_file_noise_1, test_file_noise_2.
  rewrite !resolve_processed by reflexivity.
  rewrite !node_at_deep.
  rewrite !lookup_insert_ne by distinct_keys.
  apply lookup_insert_eq.
Qed.

(** The trace of a rebuild: the eight loads, then the four writes. *)
Lemma rebuilt_trace (self : SNIST) s0 s1 s2 s3 w0 :
  log (rebuilt self s0 s1 s2 s3 w0) =
    log w0 ++
      Print "Processing..." ::
      List.map (fun name => NpLoad (posixpath.join (raw_folder self) name))
        ["train_amplitudes.npy"; "train_velocities.npy";
         "test_amplitudes.npy"; "test_velocities.npy";
         "test_amplitudes_noise_1.npy"; "test_velocities.npy";
         "test_amplitudes_noise_2.npy"; "test_velocities.npy"] ++
      List.map Write (cache_entries self) ++ [Print "Done!"].
Proof.
  unfold rebuilt, cache_entries. cbn [List.map fold_left].
  rewrite log_log_event, !log_saved, !log_log_event, <- !app_assoc.
  reflexivity.
Qed.

Lemma rebuilt_raw_array (self : SNIST) s0 s1 s2 s3 w0 name :
  posixpath.startswith_sep name = false ->
  posixpath.split name = [name] ->
  posixpath.keep_component name = true ->
  raw_array self (rebuilt self s0 s1 s2 s3 w0) name = raw_array self w0 name.
Proof.
  intros H1 H2 H3. unfold raw_array, rebuilt. cbn [fold_left].
  rewrite fs_log_event, !fs_saved, !fs_log_event.
  unfold training_file, test_file_noise_0, test_file_noise_1, test_file_noise_2.
  rewrite !resolve_processed by reflexivity.
  rewrite (resolve_raw self name H1 H2 H3).
  rewrite !node_at_deep.
  rewrite !lookup_insert_ne by distinct_keys.
  reflexivity.
Qed.

(** ** Construction *)

Lemma init_cached root_arg train_arg noise tr ttr dl w :
  let self := mk_SNIST (posixpath.expanduser (home w) root_arg) tr ttr train_arg None None in
  _check_exists self w = (Ok true, w) ->
  __init__ root_arg train_arg noise tr ttr dl w =
    match select_data_file train_arg noise with
    | None => (Raise (UnboundLocalError "data_file"), w)
    | Some file =>
        let path := posixpath.join (processed_folder self) file in
        (rbind (pt_at (node_at (fs w) (posixpath.resolve path)))
           (fun loaded =>
              Ok (mk_SNIST (posixpath.expanduser (home w) root_arg) tr ttr train_arg
                           (Some loaded.1) (Some loaded.2))),
         log_event (TorchLoad path) w)
    end.
Proof.
  intros self Hcheck. unfold __init__.
  rewrite (bind_ok _ _ w (posixpath.expanduser (home w) root_arg) w) by reflexivity.
  fold self.
  rewrite (bind_ok _ _ w tt w)
    by (destruct dl; [apply download_cached; exact Hcheck | reflexivity]).
  rewrite (bind_ok _ _ _ _ _ Hcheck). cbn [negb].
  change (train self) with train_arg.
  destruct (select_data_file train_arg noise) as [file|]; [|reflexivity].
  unfold bind at 1. unfold lift, local. unfold bind. rewrite torch_load_eq.
  cbv zeta. destruct (pt_at _) as [[features labels]|e]; reflexivity.
Qed.

Lemma init_ok_ready root_arg train_arg noise tr ttr dl w ds w' :
  __init__ root_arg train_arg noise tr ttr dl w = (Ok ds, w') ->
  exists d t, data ds = Some d /\ targets ds = Some t.
Proof.
  intros H. unfold __init__ in H.
  next_step H Hroot. next_step H Hpop. next_step H Hcheck.
  match type of H with
  | context [negb ?b] => destruct b; cbn [negb] in H; [|discriminate H]
  end.
  next_step H Hfile. next_step H Hload.
  injection H as <- _. eexists. eexists. split; reflexivity.
Qed.

Lemma processed_folder_root (s1 s2 : SNIST) :
  root s1 = root s2 -> processed_folder s1 = processed_folder s2.
Proof. unfold processed_folder. intros ->. reflexivity. Qed.

Lemma check_exists_root (s1 s2 : SNIST) :
  root s1 = root s2 -> _check_exists s1 = _check_exists s2.
Proof.
  intros H. unfold _check_exists. rewrite (processed_folder_root s1 s2 H). reflexivity.
Qed.

Lemma download_ok_complete (self : SNIST) w w1 :
  download self w = (Ok tt, w1) -> _check_exists self w1 = (Ok true, w1).
Proof.
  intros Hd.
  destruct (check_exists_spec self w) as [[|] [Hcheck _]].
  - rewrite (download_cached self w Hcheck) in Hd. injection Hd as <-. exact Hcheck.
  - destruct (download_rebuild self w w1 Hcheck Hd)
      as (w0 & ta & tv & a0 & v & a1 & a2 & _ & _ & _ & _ & _ & _ & _ & ->).
    destruct (check_exists_spec self (rebuilt self (ta, tv) (a0, v) (a1, v) (a2, v) w0))
      as [b [Hb Hiff]].
    rewrite Hb. f_equal. f_equal. apply Hiff. apply rebuilt_entries_present.
Qed.

(** ** The cache *)

(** C5: [download] is idempotent on the cache as a whole.  When all four
    processed entries exist it returns at once and leaves the world as it
    was: no fetch, no conversion, no write, no trace.  Hence a second call
    right after a call that returned is such a no-op, and the cache
    entries are what the first call left. *)
Theorem download_idempotent (self : SNIST) w :
  ((_check_exists self w).1 = Ok true -> download self w = (Ok tt, w)) /\
  ((download self w).1 = Ok tt ->
   download self (download self w).2 = (Ok tt, (download self w).2)).
Proof.
  split.
  - intros H. apply download_cached, check_exists_fst, H.
  - destruct (download self w) as [r w1] eqn:Hd. cbn [fst snd].
    intros ->. apply download_cached. exact (download_ok_complete self w w1 Hd).
Qed.

(** C6: the existence check never raises, changes nothing, and answers
    true exactly when [training.pt], [test_noise_0.pt], [test_noise_1.pt]
    and [test_noise_2.pt] are all present under the processed directory.
    If any one of them is missing the answer is false, and a call of
    [download] that then returns has rebuilt all four entries, also those
    that were present: it has loaded the eight raw files and written the
    four entries, in that order, as the last things it did, and each
    entry holds the pair of tensors converted from its own amplitude and
    velocity files as they stand in the raw directory. *)
Theorem check_exists_all_or_nothing (self : SNIST) w :
  cache_entries self =
    List.map (posixpath.join (processed_folder self))
      ["training.pt"; "test_noise_0.pt"; "test_noise_1.pt"; "test_noise_2.pt"] /\
  (exists b, _check_exists self w = (Ok b, w) /\
             (b = true <-> Forall (entry_present w) (cache_entries self))) /\
  (forall path, In path (cache_entries self) -> ~ entry_present w path ->
     _check_exists self w = (Ok false, w) /\
     ((download self w).1 = Ok tt ->
      Forall (entry_present (download self w).2) (cache_entries self) /\
      (exists l, log (download self w).2 =
         log w ++ l ++
           Print "Processing..." ::
           List.map (fun name => NpLoad (posixpath.join (raw_folder self) name))
             ["train_amplitudes.npy"; "train_velocities.npy";
              "test_amplitudes.npy"; "test_velocities.npy";
              "test_amplitudes_noise_1.npy"; "test_velocities.npy";
              "test_amplitudes_noise_2.npy"; "test_velocities.npy"] ++
           List.map Write (cache_entries self) ++ [Print "Done!"]) /\
      exists ta tv a0 a1 a2 v,
        rbind (raw_array self (download self w).2 "train_amplitudes.npy")
              amplitude_tensor = Ok ta /\
        rbind (raw_array self (download self w).2 "train_velocities.npy")
              (fun a => Ok (velocity_tensor a)) = Ok tv /\
        rbind (raw_array self (download self w).2 "test_amplitudes.npy")
              amplitude_tensor = Ok a0 /\
        rbind (raw_array self (download self w).2 "test_amplitudes_noise_1.npy")
              amplitude_tensor = Ok a1 /\
        rbind (raw_array self (download self w).2 "test_amplitudes_noise_2.npy")
              amplitude_tensor = Ok a2 /\
        rbind (raw_array self (download self w).2 "test_velocities.npy")
              (fun a => Ok (velocity_tensor a)) = Ok v /\
        List.map (fun entry => node_at (fs (download self w).2) (posixpath.resolve entry))
                 (cache_entries self) =
          [Some (File (Pt ta tv)); Some (File (Pt a0 v));
           Some (File (Pt a1 v)); Some (File (Pt a2 v))])).
Proof.
  split; [reflexivity|]. split; [apply check_exists_spec|].
  intros path Hin Hmissing.
  assert (Hcheck : _check_exists self w = (Ok false, w)).
  { destruct (check_exists_spec self w) as [[|] [Hb Hiff]]; [|exact Hb].
    exfalso. apply Hmissing.
    assert (Hall : Forall (entry_present w) (cache_entries self)) by (apply Hiff; reflexivity).
    rewrite List.Forall_forall in Hall. apply Hall. exact Hin. }
  split; [exact Hcheck|]. intros Hd. apply run_ok in Hd.
  destruct (download_rebuild self w _ Hcheck Hd)
    as (w0 & ta & tv & a0 & v & a1 & a2 & [l0 Hext] & Hta & Htv & Ha0 & Hv & Ha1 & Ha2 & ->).
  split; [apply rebuilt_entries_present|].
  split.
  { exists l0. rewrite rebuilt_trace, Hext, <- !app_assoc. reflexivity. }
  exists ta, tv, a0, a1, a2, v.
  rewrite !rebuilt_raw_array by reflexivity.
  do 6 (split; [assumption|]).
  pose proof (rebuilt_training_entry self (ta, tv) (a0, v) (a1, v) (a2, v) w0) as E.
  destruct (rebuilt_test_entries self (ta, tv) (a0, v) (a1, v) (a2, v) w0)
    as (E0 & E1 & E2).
  cbv zeta in E0, E1, E2. cbn [fst snd] in E, E0, E1, E2.
  unfold cache_entries. cbn [List.map]. rewrite E, E0, E1, E2. reflexivity.
Qed.

(** C8: when [download] finds the cache incomplete and returns, the
    three test entries it leaves hold one and the same target tensor,
    the conversion of [test_velocities.npy], next to the conversions of
    the three amplitude files; so every test dataset then constructed on
    this root, whatever its noise level in 0, 1, 2, has that target
    tensor, and the amplitude tensor of its own variant. *)
Theorem test_partitions_share_targets (self : SNIST) w :
  (_check_exists self w).1 = Ok false ->
  (download self w).1 = Ok tt ->
  let w1 := (download self w).2 in
  exists a0 a1 a2 v,
    rbind (raw_array self w1 "test_velocities.npy")
          (fun a => Ok (velocity_tensor a)) = Ok v /\
    rbind (raw_array self w1 "test_amplitudes.npy") amplitude_tensor = Ok a0 /\
    rbind (raw_array self w1 "test_amplitudes_noise_1.npy") amplitude_tensor = Ok a1 /\
    rbind (raw_array self w1 "test_amplitudes_noise_2.npy") amplitude_tensor = Ok a2 /\
    (torch_load (posixpath.join (processed_folder self) test_file_noise_0) w1).1
      = Ok (a0, v) /\
    (torch_load (posixpath.join (processed_folder self) test_file_noise_1) w1).1
      = Ok (a1, v) /\
    (torch_load (posixpath.join (processed_folder self) test_file_noise_2) w1).1
      = Ok (a2, v) /\
    forall root_arg noise tr ttr dl,
      posixpath.expanduser (home w1) root_arg = root self ->
      (0 <= noise <= 2)%Z ->
      exists ds,
        (__init__ root_arg false noise tr ttr dl w1).1 = Ok ds /\
        targets ds = Some v /\
        data ds = Some (if (noise =? 0)%Z then a0
                        else if (noise =? 1)%Z then a1 else a2).
Proof.
  intros Hcheck Hd w1. apply check_exists_fst in Hcheck. apply run_ok in Hd.
  fold w1 in Hd.
  pose proof (download_ok_complete self w w1 Hd) as Hcomplete.
  destruct (download_rebuild self w w1 Hcheck Hd)
    as (w0 & ta & tv & a0 & v & a1 & a2 & _ & _ & _ & Ha0 & Hv & Ha1 & Ha2 & Hw1).
  clearbody w1. subst w1.
  destruct (rebuilt_test_entries self (ta, tv) (a0, v) (a1, v) (a2, v) w0)
    as (E0 & E1 & E2).
  cbv zeta in E0, E1, E2. cbn [fst snd] in E0, E1, E2.
  exists a0, a1, a2, v.
  rewrite !rebuilt_raw_array by reflexivity.
  do 4 (split; [assumption|]).
  rewrite !torch_load_eq. cbn [fst]. rewrite E0, E1, E2.
  do 3 (split; [reflexivity|]).
  intros root_arg noise tr ttr dl Hroot Hnoise.
  set (w1 := rebuilt self (ta, tv) (a0, v) (a1, v) (a2, v) w0) in *.
  set (self' := mk_SNIST (posixpath.expanduser (home w1) root_arg) tr ttr false None None).
  assert (Hsame : root self' = root self) by exact Hroot.
  rewrite init_cached
    by (fold self'; rewrite (check_exists_root self' self Hsame); exact Hcomplete).
  fold self'. rewrite (processed_folder_root self' self Hsame).
  assert (Hcases : (noise = 0 \/ noise = 1 \/ noise = 2)%Z) by lia.
  destruct Hcases as [-> | [-> | ->]];
    [ change (select_data_file false 0) with (Some test_file_noise_0)
    | change (select_data_file false 1) with (Some test_file_noise_1)
    | change (select_data_file false 2) with (Some test_file_noise_2) ];
    cbv zeta; cbn [fst]; rewrite ?E0, ?E1, ?E2; cbn [pt_at rbind fst snd];
    eexists; (split; [reflexivity|]); split; reflexivity.
Qed.

(** C7: when the processed cache is incomplete after the optional
    population step of the constructor, construction raises the
    [RuntimeError] "Dataset not found. You can use download=True to
    download it": no instance is returned and nothing is loaded, the
    world being the one the population step left (the initial one when
    [download] is false). *)
Theorem init_cache_missing root_arg train_arg (noise : Z)
    (tr ttr : option (tensor -> pyobj)) (dl : bool) w :
  let self := mk_SNIST (posixpath.expanduser (home w) root_arg) tr ttr train_arg None None in
  let populate := if dl then download self else ret tt in
  (populate w).1 = Ok tt ->
  (_check_exists self (populate w).2).1 = Ok false ->
  __init__ root_arg train_arg noise tr ttr dl w =
    (Raise (RuntimeError "Dataset not found. You can use download=True to download it"),
     (populate w).2)
  /\ (dl = false -> (populate w).2 = w).
Proof.
  intros self populate Hpop Hcheck.
  apply run_ok in Hpop. apply check_exists_fst in Hcheck.
  split.
  - unfold __init__.
    rewrite (bind_ok _ _ w (posixpath.expanduser (home w) root_arg) w) by reflexivity.
    fold self. fold populate.
    rewrite (bind_ok _ _ _ _ _ Hpop), (bind_ok _ _ _ _ _ Hcheck).
    reflexivity.
  - intros Hdl. subst populate. rewrite Hdl. reflexivity.
Qed.

(** C9: with [train] false, a complete cache and a noise level other
    than 0, 1 and 2, no branch assigns [data_file]; construction raises
    [UnboundLocalError] where the variable is read, returns no instance,
    and leaves the world untouched: [torch.load] is never called. *)
Theorem init_unhandled_noise root_arg (noise : Z)
    (tr ttr : option (tensor -> pyobj)) (dl : bool) w :
  let self := mk_SNIST (posixpath.expanduser (home w) root_arg) tr ttr false None None in
  (_check_exists self w).1 = Ok true ->
  noise <> 0%Z -> noise <> 1%Z -> noise <> 2%Z ->
  select_data_file false noise = None /\
  __init__ root_arg false noise tr ttr dl w =
    (Raise (UnboundLocalError "data_file"), w).
Proof.
  intros self Hcheck H0 H1 H2. apply check_exists_fst in Hcheck.
  assert (Hnone : select_data_file false noise = None).
  { unfold select_data_file.
    destruct (Z.eqb_spec noise 0); [contradiction|].
    destruct (Z.eqb_spec noise 1); [contradiction|].
    destruct (Z.eqb_spec noise 2); [contradiction|]. reflexivity. }
  split; [exact Hnone|].
  rewrite init_cached by exact Hcheck. rewrite Hnone. reflexivity.
Qed.

(** C10: on an instance the constructor has returned, whatever its
    [train] flag, [train_labels] and [test_labels] return the loaded
    targets and [train_data] and [test_data] the loaded data; each read
    adds its renamed-attribute warning to the trace and changes nothing
    else. *)
Theorem deprecated_aliases root_arg train_arg (noise : Z)
    (tr ttr : option (tensor -> pyobj)) (dl : bool) w0 (ds : SNIST) :
  (__init__ root_arg train_arg noise tr ttr dl w0).1 = Ok ds ->
  exists d t,
    data ds = Some d /\ targets ds = Some t /\
    forall w,
      train_labels ds w =
        (Ok t, log_event (Warn "train_labels has been renamed targets") w) /\
      test_labels ds w =
        (Ok t, log_event (Warn "test_labels has been renamed targets") w) /\
      train_data ds w =
        (Ok d, log_event (Warn "train_data has been renamed data") w) /\
      test_data ds w =
        (Ok d, log_event (Warn "test_data has been renamed data") w).
Proof.
  intros Hinit.
  destruct (__init__ root_arg train_arg noise tr ttr dl w0) as [r w'] eqn:Hrun.
  cbn [fst] in Hinit. subst r.
  destruct (init_ok_ready _ _ _ _ _ _ _ _ _ Hrun) as (d & t & Hd & Ht).
  exists d, t. split; [exact Hd|]. split; [exact Ht|].
  intros w. unfold train_labels, test_labels, train_data, test_data.
  rewrite Hd, Ht. repeat split.
Qed.

(** ** Further properties of the conversions and of indexed access *)

(** X6: the velocity conversion keeps the shape of the source array,
    whatever its number of dimensions, and casts its elements in order;
    the only trace it leaves is the load. *)
Theorem read_velocity_file_shape path w (a : ndarray) :
  node_at (fs w) (posixpath.resolve path) = Some (File (Npy a)) ->
  read_velocity_file path w =
    (Ok (mk_array (shape a) (List.map to_float (elems a))),
     log_event (NpLoad path) w).
Proof.
  intros Hfile. rewrite read_velocity_file_eq, Hfile. reflexivity.
Qed.

Lemma getitem_ok_inv {A} (t : array A) (i : Z) (s : array A) :
  getitem t i = Ok s ->
  exists n rest,
    shape t = n :: rest /\ (- Z.of_nat n <= i < Z.of_nat n)%Z /\
    s = mk_array rest
          (take (prod rest)
             (drop (Z.to_nat (if (i <? 0)%Z then i + Z.of_nat n else i)%Z * prod rest)
                (elems t))).
Proof.
  unfold getitem. destruct (shape t) as [|n rest] eqn:Hshape; [discriminate|].
  destruct (Z.leb_spec (- Z.of_nat n) i); [|discriminate].
  destruct (Z.ltb_spec i (Z.of_nat n)); [|discriminate].
  cbn [andb]. intros Hs. injection Hs as <-. exists n, rest. repeat split; lia || reflexivity.
Qed.

Lemma getitem_well_formed {A} (t : array A) (i : Z) (s : array A) :
  well_formed t -> getitem t i = Ok s ->
  shape s = tail (shape t) /\ well_formed s.
Proof.
  intros Hwf Hget.
  destruct (getitem_ok_inv t i s Hget) as (n & rest & Hshape & Hi & ->).
  rewrite Hshape. split; [reflexivity|].
  unfold well_formed, numel in *. rewrite Hshape in Hwf. cbn [shape elems].
  change (prod (n :: rest)) with (n * prod rest) in Hwf.
  rewrite length_take, length_drop, Hwf.
  set (j := Z.to_nat (if (i <? 0)%Z then (i + Z.of_nat n)%Z else i)).
  assert (Hj : j < n) by (subst j; destruct (Z.ltb_spec i 0); lia).
  nia.
Qed.

(** X7: on a ready dataset whose tensors are consistent and which has no
    transforms, every read that succeeds returns two tensors whose shapes
    are those of the stored tensors without their leading dimension, each
    with exactly as many elements as its shape says. *)
Theorem samples_well_formed (self : SNIST) (d t : tensor) (i : Z) (img target : pyobj) :
  data self = Some d -> targets self = Some t ->
  transform self = None -> target_transform self = None ->
  well_formed d -> well_formed t ->
  __getitem__ self i = Ok (img, target) ->
  exists x y,
    img = PyTensor x /\ target = PyTensor y /\
    shape x = tail (shape d) /\ well_formed x /\
    shape y = tail (shape t) /\ well_formed y.
Proof.
  intros Hd Ht Hf Hg Hwd Hwt Hget.
  unfold __getitem__ in Hget. rewrite Hd, Ht, Hf, Hg in Hget. cbn [getattr rbind] in Hget.
  destruct (getitem d i) as [x|] eqn:Hx; [|discriminate].
  cbn [rbind] in Hget.
  destruct (getitem t i) as [y|] eqn:Hy; [|discriminate].
  cbn [rbind] in Hget. injection Hget as <- <-.
  destruct (getitem_well_formed d i x Hwd Hx) as [Hsx Hwx].
  destruct (getitem_well_formed t i y Hwt Hy) as [Hsy Hwy].
  exists x, y. repeat split; assumption.
Qed.

(** X8: the leading dimensions of data and targets are not compared.
    With [N] features and [M] targets, [len] is [N]; a read succeeds
    exactly when the index is accepted by both tensors, also below [N]
    when targets are fewer; otherwise it raises [IndexError] when the
    index fits a signed 64-bit integer and [ValueError] when it does
    not. *)
Theorem getitem_needs_both (self : SNIST) (d t : tensor) (N M : nat) sd st :
  data self = Some d -> targets self = Some t ->
  shape d = N :: sd -> shape t = M :: st ->
  __len__ self = Ok N /\
  forall i : Z,
    ((- Z.of_nat N <= i < Z.of_nat N)%Z /\ (- Z.of_nat M <= i < Z.of_nat M)%Z ->
       exists item, __getitem__ self i = Ok item) /\
    (~ ((- Z.of_nat N <= i < Z.of_nat N)%Z /\ (- Z.of_nat M <= i < Z.of_nat M)%Z) ->
       ((- 2 ^ 63 <= i < 2 ^ 63)%Z -> __getitem__ self i = Raise IndexError) /\
       ((i < - 2 ^ 63 \/ 2 ^ 63 <= i)%Z -> __getitem__ self i = Raise ValueError)).
Proof.
  intros Hd Ht Hsd Hst. split.
  - unfold __len__, len. rewrite Hd. cbn. rewrite Hsd. reflexivity.
  - intros i. split.
    + intros [HN HM]. unfold __getitem__. rewrite Hd, Ht. cbn [getattr rbind].
      rewrite (getitem_in_range d N sd i Hsd HN), (getitem_in_range t M st i Hst HM).
      cbn [rbind]. eexists. reflexivity.
    + intros Hout.
      assert (Hget : __getitem__ self i = Raise (index_error i)).
      { unfold __getitem__. rewrite Hd, Ht. cbn [getattr rbind].
        destruct (Z.le_gt_cases (- Z.of_nat N) i) as [H1|H1];
          [destruct (Z.lt_ge_cases i (Z.of_nat N)) as [H2|H2]|].
        - rewrite (getitem_in_range d N sd i Hsd (conj H1 H2)). cbn [rbind].
          rewrite (getitem_out_of_range t M st i Hst) by lia. reflexivity.
        - rewrite (getitem_out_of_range d N sd i Hsd) by lia. reflexivity.
        - rewrite (getitem_out_of_range d N sd i Hsd) by lia. reflexivity. }
      rewrite Hget. split; intros Hfit.
      * rewrite (index_error_int64 i Hfit). reflexivity.
      * rewrite (index_error_overflow i Hfit). reflexivity.
Qed.

(** ** Further properties of construction *)

Lemma select_data_file_selected (is_train : bool) (noise : Z) :
  is_train = true \/ (0 <= noise <= 2)%Z ->
  select_data_file is_train noise = Some (selected_file is_train noise).
Proof.
  intros [-> | Hnoise]; [reflexivity|].
  destruct is_train; [reflexivity|].
  assert (Hcases : (noise = 0 \/ noise = 1 \/ noise = 2)%Z) by lia.
  destruct Hcases as [-> | [-> | ->]]; reflexivity.
Qed.

(** X9: on a complete cache, construction loads exactly one entry:
    [training.pt] when [train] is true, whatever [noise] is (also outside
    0, 1, 2), and [test_noise_k.pt] when [train] is false and [noise] is
    [k] in 0, 1, 2.  If that entry holds a pair of tensors, the instance
    returned has them as [data] and [targets], the expanded root and the
    arguments as given; the file system is left as it was and the trace
    gains the one load, whatever the [download] flag. *)
Theorem init_loads_selected_entry root_arg (train_arg : bool) (noise : Z)
    (tr ttr : option (tensor -> pyobj)) (dl : bool) w (d t : tensor) :
  let self := mk_SNIST (posixpath.expanduser (home w) root_arg) tr ttr train_arg None None in
  let path := posixpath.join (processed_folder self)
                (if train_arg then "training.pt"
                 else nth (Z.to_nat noise) ["test_noise_0.pt"; "test_noise_1.pt"]
                        "test_noise_2.pt") in
  (_check_exists self w).1 = Ok true ->
  train_arg = true \/ (0 <= noise <= 2)%Z ->
  node_at (fs w) (posixpath.resolve path) = Some (File (Pt d t)) ->
  __init__ root_arg train_arg noise tr ttr dl w =
    (Ok (mk_SNIST (posixpath.expanduser (home w) root_arg) tr ttr train_arg
                  (Some d) (Some t)),
     log_event (TorchLoad path) w).
Proof.
  intros self path Hcheck Hsel Hnode. apply check_exists_fst in Hcheck.
  rewrite init_cached by exact Hcheck.
  rewrite (select_data_file_selected train_arg noise Hsel).
  cbv zeta. fold self. change (posixpath.join (processed_folder self)
    (selected_file train_arg noise)) with path.
  rewrite Hnode. reflexivity.
Qed.

(** X10: the existence check does not look inside the entries, and
    [download] repairs nothing on a complete cache.  With a complete
    cache, construction with [download] true does exactly what it does
    with [download] false; it gets past the existence check and its
    outcome is that of loading and unpacking the selected entry: for a
    directory the [OSError] of opening it, for bytes [torch.load] cannot
    read the error it raises on them; and a file that holds one tensor of
    two rows is accepted, the rows becoming [data] and [targets]. *)
Theorem init_corrupt_entry root_arg (train_arg : bool) (noise : Z)
    (tr ttr : option (tensor -> pyobj)) (dl : bool) w :
  let self := mk_SNIST (posixpath.expanduser (home w) root_arg) tr ttr train_arg None None in
  let path := posixpath.join (processed_folder self)
                (if train_arg then "training.pt"
                 else nth (Z.to_nat noise) ["test_noise_0.pt"; "test_noise_1.pt"]
                        "test_noise_2.pt") in
  let entry := node_at (fs w) (posixpath.resolve path) in
  let init := __init__ root_arg train_arg noise tr ttr in
  (_check_exists self w).1 = Ok true ->
  train_arg = true \/ (0 <= noise <= 2)%Z ->
  init true w = init false w /\
  (entry = Some Dir ->
     init dl w = (Raise (OSError EISDIR), log_event (TorchLoad path) w)) /\
  (forall e, entry = Some (File (Blob e)) ->
     init dl w = (Raise e, log_event (TorchLoad path) w)) /\
  (forall t rest, entry = Some (File (PtTensor t)) -> shape t = 2 :: rest ->
     exists first second,
       getitem t 0 = Ok first /\ getitem t 1 = Ok second /\
       init dl w =
         (Ok (mk_SNIST (posixpath.expanduser (home w) root_arg) tr ttr train_arg
                       (Some first) (Some second)),
          log_event (TorchLoad path) w)).
Proof.
  intros self path entry init Hcheck Hsel. apply check_exists_fst in Hcheck.
  assert (Hinit : forall flag, init flag w =
            (rbind (pt_at entry)
               (fun loaded =>
                  Ok (mk_SNIST (posixpath.expanduser (home w) root_arg) tr ttr train_arg
                               (Some loaded.1) (Some loaded.2))),
             log_event (TorchLoad path) w)).
  { intros flag. subst init. cbv beta. rewrite init_cached by exact Hcheck.
    rewrite (select_data_file_selected train_arg noise Hsel). reflexivity. }
  split; [rewrite !Hinit; reflexivity|].
  rewrite Hinit. clear Hinit.
  split; [intros ->; reflexivity|].
  split; [intros e ->; reflexivity|].
  intros t rest -> Hshape.
  assert (H0 : (- Z.of_nat 2 <= 0 < Z.of_nat 2)%Z) by lia.
  assert (H1 : (- Z.of_nat 2 <= 1 < Z.of_nat 2)%Z) by lia.
  eexists. eexists.
  split; [exact (getitem_in_range t 2 rest 0 Hshape H0)|].
  split; [exact (getitem_in_range t 2 rest 1 Hshape H1)|].
  cbn [pt_at unpickle_pair]. unfold unpack_pair. rewrite Hshape.
  rewrite (getitem_in_range t 2 rest 0 Hshape H0),
          (getitem_in_range t 2 rest 1 Hshape H1).
  reflexivity.
Qed.

(** X11: construction with [download] false only reads.  Whatever the
    arguments and the outcome, the file system, the network and the home
    directory are as before, and the trace gains nothing or the load of
    one processed entry. *)
Theorem init_without_download_reads_only root_arg (train_arg : bool) (noise : Z)
    (tr ttr : option (tensor -> pyobj)) w :
  let self := mk_SNIST (posixpath.expanduser (home w) root_arg) tr ttr train_arg None None in
  let w' := (__init__ root_arg train_arg noise tr ttr false w).2 in
  fs w' = fs w /\ net w' = net w /\ home w' = home w /\
  (log w' = log w \/
   exists path, In path (cache_entries self) /\ log w' = log w ++ [TorchLoad path]).
Proof.
  intros self.
  destruct (check_exists_spec self w) as [[|] [Hcheck _]].
  - rewrite init_cached by exact Hcheck. fold self.
    unfold select_data_file, cache_entries. cbn [List.map].
    destruct train_arg;
      [|destruct (noise =? 0)%Z; [|destruct (noise =? 1)%Z; [|destruct (noise =? 2)%Z]]];
      cbv zeta; cbn [snd]; repeat split;
      try (left; reflexivity);
      right; eexists; (split; [|reflexivity]); cbn [In]; tauto.
  - cbv zeta. unfold __init__.
    rewrite (bind_ok _ _ w (posixpath.expanduser (home w) root_arg) w) by reflexivity.
    fold self.
    rewrite (bind_ok _ _ w tt w) by reflexivity.
    rewrite (bind_ok _ _ _ _ _ Hcheck). cbn [negb snd raise].
    repeat split. left. reflexivity.
Qed.

(** X12: first use.  When construction with [train] and [download] true
    finds the cache incomplete and its population step returns, the
    construction succeeds, whatever [noise] is, and the instance holds the
    conversions of [train_amplitudes.npy] and [train_velocities.npy] as
    they stand in the raw directory: what was saved is what is loaded. *)
Theorem init_download_training root_arg (noise : Z)
    (tr ttr : option (tensor -> pyobj)) w :
  let self := mk_SNIST (posixpath.expanduser (home w) root_arg) tr ttr true None None in
  let w1 := (download self w).2 in
  (_check_exists self w).1 = Ok false ->
  (download self w).1 = Ok tt ->
  exists ds features labels,
    (__init__ root_arg true noise tr ttr true w).1 = Ok ds /\
    data ds = Some features /\ targets ds = Some labels /\
    rbind (raw_array self w1 "train_amplitudes.npy") amplitude_tensor = Ok features /\
    rbind (raw_array self w1 "train_velocities.npy")
          (fun a => Ok (velocity_tensor a)) = Ok labels.
Proof.
  intros self w1 Hcheck Hd. apply check_exists_fst in Hcheck. apply run_ok in Hd.
  fold w1 in Hd.
  pose proof (download_ok_complete self w w1 Hd) as Hcomplete.
  destruct (download_rebuild self w w1 Hcheck Hd)
    as (w0 & ta & tv & a0 & v & a1 & a2 & _ & Hta & Htv & _ & _ & _ & _ & Hw1).
  exists (mk_SNIST (posixpath.expanduser (home w) root_arg) tr ttr true (Some ta) (Some tv)),
    ta, tv.
  split.
  - unfold __init__.
    rewrite (bind_ok _ _ w (posixpath.expanduser (home w) root_arg) w) by reflexivity.
    fold self. rewrite (bind_ok _ _ _ _ _ Hd), (bind_ok _ _ _ _ _ Hcomplete).
    cbn [negb]. change (select_data_file (train self) noise) with (Some training_file).
    unfold bind at 1. unfold lift, local. unfold bind. rewrite torch_load_eq.
    clearbody w1. subst w1. rewrite rebuilt_training_entry. reflexivity.
  - clearbody w1. subst w1. rewrite !rebuilt_raw_array by reflexivity.
    repeat split; assumption.
Qed.

(** ** What population leaves alone *)

Lemma node_at_insert_absent (f : gmap (list string) node) k0 x k n :
  node_at f k0 = None -> node_at f k = Some n -> node_at (<[k0 := x]> f) k = Some n.
Proof.
  unfold node_at. destruct (is_base k); [intros _ H; exact H|].
  destruct (is_base k0); [discriminate|].
  intros Hnone Hsome. rewrite lookup_insert_ne; [exact Hsome|].
  intros ->. congruence.
Qed.

Lemma node_at_insert_other (f : gmap (list string) node) k0 x k :
  k0 <> k -> node_at (<[k0 := x]> f) k = node_at f k.
Proof.
  intros Hne. unfold node_at. destruct (is_base k); [reflexivity|].
  apply lookup_insert_ne. exact Hne.
Qed.

Lemma create_missing_keeps (ks : list (list string)) (f f' : gmap (list string) node)
    (k : list string) (n : node) :
  create_missing ks f = Ok f' -> node_at f k = Some n -> node_at f' k = Some n.
Proof.
  revert f. induction ks as [|k0 ks IH]; intros f Hok Hk.
  - injection Hok as <-. exact Hk.
  - cbn [create_missing] in Hok.
    destruct (node_at f k0) as [[|c]|] eqn:Hk0; [eauto | discriminate |].
    eapply IH; [exact Hok|]. apply node_at_insert_absent; assumption.
Qed.

Lemma preserves_ret k n {A} (a : A) : preserves k n (ret a).
Proof. intros w r w' H. inversion H. auto. Qed.

Lemma preserves_raise k n {A} e : preserves k n (raise (A:=A) e).
Proof. intros w r w' H. inversion H. auto. Qed.

Lemma preserves_lift k n {A} (x : result A) : preserves k n (lift x).
Proof. intros w r w' H. inversion H. auto. Qed.

Lemma preserves_gets k n {A} (f : world -> A) : preserves k n (gets f).
Proof. intros w r w' H. inversion H. auto. Qed.

Lemma preserves_emit k n e : preserves k n (emit e).
Proof. intros w r w' H. inversion H. auto. Qed.

Lemma preserves_bind k n {A B} (c : M world A) (f : A -> M world B) :
  preserves k n c -> (forall a, preserves k n (f a)) -> preserves k n (bind c f).
Proof.
  intros Hc Hf w r w'. unfold bind.
  destruct (c w) as [[a|e] w1] eqn:Hcw; intros H Hk.
  - eapply Hf; [exact H|]. eapply Hc; eassumption.
  - inversion H; subst. eapply Hc; eassumption.
Qed.

Lemma preserves_try_except k n {A} (c : M world A) handler :
  preserves k n c -> (forall e, preserves k n (handler e)) ->
  preserves k n (try_except c handler).
Proof.
  intros Hc Hh w r w'. unfold try_except.
  destruct (c w) as [[a|e] w1] eqn:Hcw; intros H Hk.
  - inversion H; subst. eapply Hc; eassumption.
  - eapply Hh; [exact H|]. eapply Hc; eassumption.
Qed.

Lemma preserves_for_each k n {A} (l : list A) (body : A -> M world unit) :
  (forall x, preserves k n (body x)) -> preserves k n (for_each l body).
Proof.
  intros Hbody. induction l as [|x l IH]; simpl.
  - apply preserves_ret.
  - apply preserves_bind; [apply Hbody | intros _; exact IH].
Qed.

Lemma preserves_os_makedirs k n name : preserves k n (os_makedirs name).
Proof.
  intros w r w'. unfold os_makedirs, bind, gets, lift, modify, emit, raise.
  destruct (create_missing (ancestors (posixpath.resolve name)) (fs w)) as [f'|e] eqn:Hc;
    [|intros H Hk; inversion H; subst; exact Hk].
  destruct (node_at f' (posixpath.resolve name)) as [x|] eqn:Hname;
    intros H Hk; inversion H; subst; [exact Hk|].
  rewrite fs_log_event. cbn [fs with_fs].
  apply node_at_insert_absent; [exact Hname|].
  eapply create_missing_keeps; eassumption.
Qed.

Lemma preserves_makedir_exist_ok k n dirpath : preserves k n (makedir_exist_ok dirpath).
Proof.
  unfold makedir_exist_ok. apply preserves_try_except.
  - apply preserves_os_makedirs.
  - intros [| | | | | |[]| |]; cbn [errno_eqb];
      apply preserves_ret || apply preserves_raise.
Qed.

(** Writing replaces a regular file or creates one; it never replaces a
    directory, and touches no other path. *)
Lemma preserves_write_file k n path c :
  n = Dir \/ posixpath.resolve path <> k -> preserves k n (write_file path c).
Proof.
  intros Hside w r w'. unfold write_file, bind, gets, modify, emit, raise.
  assert (Hkeep : node_at (fs w) k = Some n ->
            posixpath.resolve path <> k \/ node_at (fs w) (posixpath.resolve path) = Some Dir).
  { intros Hk. destruct Hside as [-> | Hne]; [|left; exact Hne].
    destruct (decide (posixpath.resolve path = k)) as [->|Hne]; [right; exact Hk | left; exact Hne]. }
  destruct (node_at (fs w) (posixpath.resolve path)) as [[|c0]|] eqn:Hp;
    try (intros H Hk; inversion H; subst; exact Hk);
    destruct (node_at (fs w) (removelast (posixpath.resolve path))) as [[|c1]|];
    intros H Hk; inversion H; subst; try exact Hk;
    rewrite fs_log_event; cbn [fs with_fs];
    (destruct (Hkeep Hk) as [Hne | Hdir]; [|discriminate Hdir]);
    rewrite node_at_insert_other by exact Hne; exact Hk.
Qed.

Lemma preserves_os_makedirs_exist_ok k n name : preserves k n (os_makedirs_exist_ok name).
Proof.
  unfold os_makedirs_exist_ok. apply preserves_bind; [apply preserves_gets|].
  intros [|]; [apply preserves_ret | apply preserves_os_makedirs].
Qed.

(** A download never replaces what is already on disk. *)
Lemma preserves_download_url k n url dir filename :
  preserves k n (download_url url dir filename).
Proof.
  intros w r w'. unfold download_url.
  unfold bind at 1.
  destruct (os_makedirs_exist_ok dir w) as [[u|e] w1] eqn:Hmk; intros H Hk;
    pose proof (preserves_os_makedirs_exist_ok k n dir w _ _ Hmk Hk) as Hk1;
    [|inversion H; subst; exact Hk1].
  destruct (decide (posixpath.resolve (posixpath.join dir filename) = k)) as [Heq|Hne].
  - destruct n as [|c0].
    + revert H. unfold bind, os_path_isfile, gets. rewrite Heq, Hk1.
      unfold emit, modify.
      destruct (net (log_event _ w1) !! url) as [c|];
        [|intros H; inversion H; subst; rewrite fs_log_event; exact Hk1].
      intros H. eapply (preserves_write_file k Dir); [left; reflexivity | exact H |].
      rewrite fs_log_event. exact Hk1.
    + revert H. unfold bind, os_path_isfile, gets. rewrite Heq, Hk1.
      unfold print, emit, modify. intros H. inversion H; subst. exact Hk1.
  - revert H. unfold bind at 1. unfold os_path_isfile, gets.
    destruct (match node_at (fs w1) _ with Some (File _) => true | _ => false end).
    + unfold print, emit, modify. intros H. inversion H; subst. exact Hk1.
    + unfold bind, emit, modify, gets.
      destruct (net (log_event _ w1) !! url) as [c|];
        [|intros H; inversion H; subst; rewrite fs_log_event; exact Hk1].
      intros H. eapply (preserves_write_file k n); [right; exact Hne | exact H |].
      rewrite fs_log_event. exact Hk1.
Qed.

Lemma preserves_read_amplitude_file k n path : preserves k n (read_amplitude_file path).
Proof.
  intros w r w' H Hk. rewrite read_amplitude_file_eq in H. inversion H; subst. exact Hk.
Qed.

Lemma preserves_read_velocity_file k n path : preserves k n (read_velocity_file path).
Proof.
  intros w r w' H Hk. rewrite read_velocity_file_eq in H. inversion H; subst. exact Hk.
Qed.

Lemma preserves_check_exists k n (self : SNIST) : preserves k n (_check_exists self).
Proof.
  intros w r w' H Hk. destruct (check_exists_spec self w) as [b [Hb _]].
  rewrite Hb in H. inversion H; subst. exact Hk.
Qed.

(** X13: population never removes or replaces what it did not make.
    Whatever the outcome of [download], every directory on disk before the
    call is a directory after it, and every regular file other than the
    four processed cache entries is there with the same content: raw files
    already present are not fetched again, and nothing is ever deleted. *)
Theorem download_keeps_other_nodes (self : SNIST) w k (n : node) :
  node_at (fs w) k = Some n ->
  n = Dir \/ ~ In k (List.map posixpath.resolve (cache_entries self)) ->
  node_at (fs (download self w).2) k = Some n.
Proof.
  intros Hk Hside.
  assert (Hsave : forall obj name, In name
            [training_file; test_file_noise_0; test_file_noise_1; test_file_noise_2] ->
            preserves k n (torch_save obj (posixpath.join (processed_folder self) name))).
  { intros obj name Hin. apply preserves_write_file.
    destruct Hside as [-> | Hout]; [left; reflexivity | right].
    intros Heq. apply Hout. rewrite <- Heq. unfold cache_entries.
    apply in_map, in_map, Hin. }
  assert (Hall : preserves k n (download self)).
  { unfold download.
    apply preserves_bind; [apply preserves_check_exists|].
    intros [|]; [apply preserves_ret|].
    apply preserves_bind; [apply preserves_makedir_exist_ok | intros _].
    apply preserves_bind; [apply preserves_makedir_exist_ok | intros _].
    apply preserves_bind;
      [apply preserves_for_each; intros url; apply preserves_download_url | intros _].
    apply preserves_bind; [apply preserves_emit | intros _].
    do 4 (apply preserves_bind; [apply preserves_read_amplitude_file | intros ?];
          apply preserves_bind; [apply preserves_read_velocity_file | intros ?]).
    apply preserves_bind; [apply Hsave; cbn [In]; tauto | intros _].
    apply preserves_bind; [apply Hsave; cbn [In]; tauto | intros _].
    apply preserves_bind; [apply Hsave; cbn [In]; tauto | intros _].
    apply preserves_bind; [apply Hsave; cbn [In]; tauto | intros _].
    apply preserves_emit. }
  eapply Hall; [apply run_eta | exact Hk].
Qed.

(** ** Directory creation *)

Lemma create_missing_all_dirs (ks : list (list string)) (f : gmap (list string) node) :
  Forall (fun a => node_at f a = Some Dir) ks -> create_missing ks f = Ok f.
Proof.
  induction 1 as [|a ks Ha _ IH]; [reflexivity|].
  cbn [create_missing]. rewrite Ha. exact IH.
Qed.

Lemma create_missing_ok_dirs (ks : list (list string)) (f f' : gmap (list string) node) :
  create_missing ks f = Ok f' -> Forall (fun a => node_at f' a = Some Dir) ks.
Proof.
  revert f. induction ks as [|k0 ks IH]; intros f Hok; [constructor|].
  cbn [create_missing] in Hok.
  destruct (node_at f k0) as [[|c]|] eqn:Hk0; [| discriminate |].
  - constructor; [|eapply IH; exact Hok].
    eapply create_missing_keeps; eassumption.
  - constructor; [|eapply IH; exact Hok].
    eapply create_missing_keeps; [exact Hok|].
    unfold node_at in *. destruct (is_base k0); [discriminate|].
    apply lookup_insert_eq.
Qed.

Lemma create_missing_file (ks : list (list string)) (f : gmap (list string) node)
    (a : list string) (c : content) :
  In a ks -> node_at f a = Some (File c) ->
  create_missing ks f = Raise (OSError ENOTDIR).
Proof.
  revert f. induction ks as [|k0 ks IH]; intros f Hin Ha; [destruct Hin|].
  cbn [create_missing].
  destruct (node_at f k0) as [[|c0]|] eqn:Hk0; [| reflexivity |].
  - destruct Hin as [-> | Hin]; [congruence|]. apply IH; assumption.
  - destruct Hin as [-> | Hin]; [congruence|]. apply IH; [exact Hin|].
    apply node_at_insert_absent; assumption.
Qed.

Lemma create_missing_raise (ks : list (list string)) (f : gmap (list string) node) e :
  create_missing ks f = Raise e -> e = OSError ENOTDIR.
Proof.
  revert f. induction ks as [|k0 ks IH]; intros f H; [discriminate|].
  cbn [create_missing] in H.
  destruct (node_at f k0) as [[|c0]|]; [eauto | congruence | eauto].
Qed.

Lemma create_missing_other (ks : list (list string)) (f f' : gmap (list string) node)
    (k : list string) :
  ~ In k ks -> create_missing ks f = Ok f' -> node_at f' k = node_at f k.
Proof.
  revert f. induction ks as [|k0 ks IH]; intros f Hout Hok.
  - injection Hok as <-. reflexivity.
  - cbn [create_missing] in Hok. cbn [In] in Hout.
    destruct (node_at f k0) as [[|c]|]; [| discriminate |].
    + apply IH; tauto.
    + rewrite (IH _ ltac:(tauto) Hok). apply node_at_insert_other. tauto.
Qed.

Lemma ancestors_shorter (k a : list string) : In a (ancestors k) -> length a < length k.
Proof.
  unfold ancestors. rewrite in_map_iff. intros (n & <- & Hn).
  apply in_seq in Hn. rewrite length_take. lia.
Qed.

Lemma not_in_ancestors (k : list string) : ~ In k (ancestors k).
Proof. intros Hin. apply ancestors_shorter in Hin. lia. Qed.

(** [makedir_exist_ok] case by case: an ancestor that is a regular file
    stops it, a path already there is accepted as it is, and otherwise the
    directory and its missing ancestors are made. *)
Lemma makedir_exist_ok_eq dirpath w :
  makedir_exist_ok dirpath w =
    let k := posixpath.resolve dirpath in
    match create_missing (ancestors k) (fs w) with
    | Raise e => (Raise (OSError ENOTDIR), w)
    | Ok f' =>
        match node_at f' k with
        | Some _ => (Ok tt, w)
        | None => (Ok tt, log_event (Mkdir dirpath) (with_fs (<[k := Dir]> f') w))
        end
    end.
Proof.
  unfold makedir_exist_ok, try_except, os_makedirs, bind, gets, lift, modify, emit, raise, ret.
  cbv zeta.
  destruct (create_missing _ (fs w)) as [f'|e] eqn:Hc.
  - destruct (node_at f' (posixpath.resolve dirpath)); reflexivity.
  - apply create_missing_raise in Hc. subst e. reflexivity.
Qed.

(** X14: [makedir_exist_ok] is idempotent.  When a call returns, the path
    names something on disk, and a second call returns as well and leaves
    the world, trace included, exactly as the first call left it. *)
Theorem makedir_exist_ok_idempotent dirpath w :
  (makedir_exist_ok dirpath w).1 = Ok tt ->
  entry_present (makedir_exist_ok dirpath w).2 dirpath /\
  makedir_exist_ok dirpath (makedir_exist_ok dirpath w).2 =
    (Ok tt, (makedir_exist_ok dirpath w).2).
Proof.
  rewrite (makedir_exist_ok_eq dirpath w). cbv zeta.
  destruct (create_missing _ (fs w)) as [f'|e] eqn:Hc; [|discriminate].
  destruct (node_at f' (posixpath.resolve dirpath)) as [x|] eqn:Hk; intros _; cbn [snd].
  - split.
    + unfold entry_present.
      rewrite <- (create_missing_other _ _ _ _ (not_in_ancestors _) Hc), Hk. eexists. reflexivity.
    + rewrite makedir_exist_ok_eq. cbv zeta. rewrite Hc, Hk. reflexivity.
  - assert (Hbase : is_base (posixpath.resolve dirpath) = false)
      by (unfold node_at in Hk; destruct (is_base _); [discriminate | reflexivity]).
    assert (Hnew : node_at (<[posixpath.resolve dirpath := Dir]> f') (posixpath.resolve dirpath)
                   = Some Dir)
      by (unfold node_at; rewrite Hbase; apply lookup_insert_eq).
    split.
    + unfold entry_present. rewrite fs_log_event. cbn [fs with_fs]. rewrite Hnew.
      eexists. reflexivity.
    + rewrite makedir_exist_ok_eq. cbv zeta. rewrite fs_log_event. cbn [fs with_fs].
      rewrite create_missing_all_dirs, Hnew; [reflexivity|].
      apply create_missing_ok_dirs in Hc.
      eapply Forall_impl; [exact Hc|]. intros a Ha. cbn beta in *.
      apply node_at_insert_absent; assumption.
Qed.

(** X15: what [makedir_exist_ok] tolerates is any existing path, not only
    a directory.  If the path names a regular file (its ancestors being
    directories), the call returns normally and changes nothing: the file
    stays a file. *)
Theorem makedir_exist_ok_accepts_file dirpath w (c : content) :
  node_at (fs w) (posixpath.resolve dirpath) = Some (File c) ->
  Forall (fun a => node_at (fs w) a = Some Dir) (ancestors (posixpath.resolve dirpath)) ->
  makedir_exist_ok dirpath w = (Ok tt, w).
Proof.
  intros Hfile Hdirs. rewrite makedir_exist_ok_eq. cbv zeta.
  rewrite (create_missing_all_dirs _ _ Hdirs), Hfile. reflexivity.
Qed.

(** X16: an error other than "already exists" is raised again.  If an
    ancestor of the path is a regular file, [makedir_exist_ok] raises
    [OSError] with [ENOTDIR] and creates nothing. *)
Theorem makedir_exist_ok_ancestor_file dirpath w (a : list string) (c : content) :
  In a (ancestors (posixpath.resolve dirpath)) ->
  node_at (fs w) a = Some (File c) ->
  makedir_exist_ok dirpath w = (Raise (OSError ENOTDIR), w).
Proof.
  intros Hin Ha. rewrite makedir_exist_ok_eq. cbv zeta.
  rewrite (create_missing_file _ _ a c Hin Ha). reflexivity.
Qed.

(** ** Layout of the cache *)

(** X17: for every root, also an empty one, one with a trailing separator
    or with [.] components, the four cache entries lie directly in
    [root/SNIST/processed] and the six raw files, named by the last
    segments of their URLs, directly in [root/SNIST/raw]: ten distinct
    paths, so no file of the pipeline overwrites another. *)
Theorem cache_layout (self : SNIST) :
  let raw_paths :=
    List.map (fun url => posixpath.join (raw_folder self) (posixpath.rpartition_tail url))
      urls in
  List.map posixpath.resolve (cache_entries self) =
    List.map (fun name => posixpath.resolve (root self) ++ ["SNIST"; "processed"; name])
      ["training.pt"; "test_noise_0.pt"; "test_noise_1.pt"; "test_noise_2.pt"] /\
  List.map posixpath.resolve raw_paths =
    List.map (fun name => posixpath.resolve (root self) ++ ["SNIST"; "raw"; name])
      ["train_amplitudes.npy"; "train_velocities.npy"; "test_amplitudes.npy";
       "test_velocities.npy"; "test_amplitudes_noise_1.npy";
       "test_amplitudes_noise_2.npy"] /\
  NoDup (List.map posixpath.resolve (raw_paths ++ cache_entries self)).
Proof.
  cbv zeta.
  assert (Hc : List.map posixpath.resolve (cache_entries self) =
    List.map (fun name => posixpath.resolve (root self) ++ ["SNIST"; "processed"; name])
      ["training.pt"; "test_noise_0.pt"; "test_noise_1.pt"; "test_noise_2.pt"]).
  { unfold cache_entries, training_file, test_file_noise_0, test_file_noise_1,
      test_file_noise_2. cbn [List.map].
    rewrite !resolve_processed by reflexivity. reflexivity. }
  assert (Hr : List.map posixpath.resolve
      (List.map (fun url => posixpath.join (raw_folder self) (posixpath.rpartition_tail url))
         urls) =
    List.map (fun name => posixpath.resolve (root self) ++ ["SNIST"; "raw"; name])
      ["train_amplitudes.npy"; "train_velocities.npy"; "test_amplitudes.npy";
       "test_velocities.npy"; "test_amplitudes_noise_1.npy";
       "test_amplitudes_noise_2.npy"]).
  { unfold urls. cbn [List.map].
    repeat match goal with
           | |- context [posixpath.rpartition_tail ?u] =>
               let v := eval vm_compute in (posixpath.rpartition_tail u) in
               change (posixpath.rpartition_tail u) with v
           end.
    rewrite !resolve_raw by reflexivity. reflexivity. }
  split; [exact Hc|]. split; [exact Hr|].
  rewrite List.map_app, Hc, Hr.
  change (NoDup (List.map (app (posixpath.resolve (root self)))
    (List.map (fun name => ["SNIST"; "raw"; name])
       ["train_amplitudes.npy"; "train_velocities.npy"; "test_amplitudes.npy";
        "test_velocities.npy"; "test_amplitudes_noise_1.npy";
        "test_amplitudes_noise_2.npy"] ++
     List.map (fun name => ["SNIST"; "processed"; name])
       ["training.pt"; "test_noise_0.pt"; "test_noise_1.pt"; "test_noise_2.pt"]))).
  apply NoDup_fmap_2; [intros x y Heq; exact (app_inv_head _ _ _ Heq)|].
  apply (bool_decide_unpack _). vm_compute. exact I.
Qed.

(** ** When a fetch fails *)

Section Relates.

(** Computations whose initial and final worlds are related by [R],
    whatever their outcome. *)
Variable R : world -> world -> Prop.
Hypothesis R_refl : forall w, R w w.
Hypothesis R_trans : forall a b c, R a b -> R b c -> R a c.

Definition relates {A} (c : M world A) : Prop :=
  forall w r w', c w = (r, w') -> R w w'.

Lemma relates_pure {A} (c : M world A) :
  (forall w, (c w).2 = w) -> relates c.
Proof using R_refl.
  intros Hc w r w' H. specialize (Hc w). rewrite H in Hc. cbn [snd] in Hc. subst w'.
  apply R_refl.
Qed.

Lemma relates_bind {A B} (c : M world A) (f : A -> M world B) :
  relates c -> (forall a, relates (f a)) -> relates (bind c f).
Proof using R_trans.
  intros Hc Hf w r w'. unfold bind.
  destruct (c w) as [[a|e] w1] eqn:Hcw; intros H.
  - eapply R_trans; [eapply Hc | eapply Hf]; eassumption.
  - inversion H; subst. eapply Hc; eassumption.
Qed.

Lemma relates_for_each {A} (l : list A) (body : A -> M world unit) :
  (forall x, In x l -> relates (body x)) -> relates (for_each l body).
Proof using R_refl R_trans.
  induction l as [|x l IH]; intros Hbody; cbn [for_each].
  - apply relates_pure. reflexivity.
  - apply relates_bind; [apply Hbody; left; reflexivity|].
    intros _. apply IH. intros y Hy. apply Hbody. right. exact Hy.
Qed.

End Relates.

Lemma same_at_trans k a b c : same_at k a b -> same_at k b c -> same_at k a c.
Proof. unfold same_at. congruence. Qed.

Lemma same_net_trans (a b c : world) : same_net a b -> same_net b c -> same_net a c.
Proof. unfold same_net. congruence. Qed.

Lemma makedir_exist_ok_same_net dirpath : relates same_net (makedir_exist_ok dirpath).
Proof.
  intros w r w' H. rewrite makedir_exist_ok_eq in H. cbv zeta in H.
  destruct (create_missing _ (fs w)) as [f'|e]; [|inversion H; reflexivity].
  destruct (node_at f' _); inversion H; reflexivity.
Qed.

Lemma makedir_exist_ok_same_at k dirpath :
  length (posixpath.resolve dirpath) < length k ->
  relates (same_at k) (makedir_exist_ok dirpath).
Proof.
  intros Hlen w r w' H. rewrite makedir_exist_ok_eq in H. cbv zeta in H.
  unfold same_at.
  destruct (create_missing _ (fs w)) as [f'|e] eqn:Hc; [|inversion H; reflexivity].
  destruct (node_at f' _); inversion H; subst; [reflexivity|].
  rewrite fs_log_event. cbn [fs with_fs].
  rewrite node_at_insert_other by (intros Heq; rewrite Heq in Hlen; lia).
  apply create_missing_other with (ks := ancestors (posixpath.resolve dirpath)); [|exact Hc].
  intros Hin. apply ancestors_shorter in Hin. lia.
Qed.

Lemma os_makedirs_exist_ok_run name w :
  (os_makedirs_exist_ok name w).2 = w \/
  exists f', create_missing (ancestors (posixpath.resolve name)) (fs w) = Ok f' /\
    (os_makedirs_exist_ok name w).2 =
      log_event (Mkdir name) (with_fs (<[posixpath.resolve name := Dir]> f') w).
Proof.
  unfold os_makedirs_exist_ok, os_makedirs, bind, gets, lift, modify, emit, raise, ret.
  destruct (match node_at (fs w) (posixpath.resolve name) with Some Dir => true | _ => false end);
    [left; reflexivity|].
  destruct (create_missing _ (fs w)) as [f'|e] eqn:Hc; [|left; reflexivity].
  destruct (node_at f' (posixpath.resolve name)); [left; reflexivity|].
  right. exists f'. split; reflexivity.
Qed.

Lemma os_makedirs_exist_ok_same_net name : relates same_net (os_makedirs_exist_ok name).
Proof.
  intros w r w' H. unfold same_net.
  replace w' with (os_makedirs_exist_ok name w).2 by (rewrite H; reflexivity).
  destruct (os_makedirs_exist_ok_run name w) as [-> | (f' & _ & ->)]; reflexivity.
Qed.

Lemma os_makedirs_exist_ok_same_at k name :
  length (posixpath.resolve name) < length k ->
  relates (same_at k) (os_makedirs_exist_ok name).
Proof.
  intros Hlen w r w' H. unfold same_at.
  replace w' with (os_makedirs_exist_ok name w).2 by (rewrite H; reflexivity).
  destruct (os_makedirs_exist_ok_run name w) as [-> | (f' & Hc & ->)]; [reflexivity|].
  rewrite fs_log_event. cbn [fs with_fs].
  rewrite node_at_insert_other by (intros Heq; rewrite Heq in Hlen; lia).
  apply create_missing_other with (ks := ancestors (posixpath.resolve name)); [|exact Hc].
  intros Hin. apply ancestors_shorter in Hin. lia.
Qed.

Lemma write_file_run path c w :
  (write_file path c w).2 = w \/
  (write_file path c w).2 =
    log_event (Write path) (with_fs (<[posixpath.resolve path := File c]> (fs w)) w).
Proof.
  unfold write_file, bind, gets, modify, emit, raise.
  destruct (node_at (fs w) (posixpath.resolve path)) as [[|c0]|];
    try (left; reflexivity);
    destruct (node_at (fs w) (removelast (posixpath.resolve path))) as [[|c1]|];
    (left; reflexivity) || (right; reflexivity).
Qed.

Lemma download_url_same_net url dir filename :
  relates same_net (download_url url dir filename).
Proof.
  unfold download_url.
  apply relates_bind; [exact same_net_trans | apply os_makedirs_exist_ok_same_net |].
  intros _. apply relates_bind; [exact same_net_trans | apply relates_pure; reflexivity |].
  intros [|]; [intros w r w' H; inversion H; reflexivity|].
  apply relates_bind; [exact same_net_trans | intros w r w' H; inversion H; reflexivity |].
  intros _. apply relates_bind; [exact same_net_trans | apply relates_pure; reflexivity |].
  intros [c|]; [|apply relates_pure; reflexivity].
  intros w r w' H. unfold same_net.
  replace w' with (write_file (posixpath.join dir filename) c w).2 by (rewrite H; reflexivity).
  destruct (write_file_run (posixpath.join dir filename) c w) as [-> | ->]; reflexivity.
Qed.

Lemma download_url_same_at k url dir filename :
  length (posixpath.resolve dir) < length k ->
  posixpath.resolve (posixpath.join dir filename) <> k ->
  relates (same_at k) (download_url url dir filename).
Proof.
  intros Hlen Hne. unfold download_url.
  apply relates_bind;
    [exact (same_at_trans k) | apply os_makedirs_exist_ok_same_at; exact Hlen |].
  intros _. apply relates_bind;
    [exact (same_at_trans k) | apply relates_pure; reflexivity |].
  intros [|]; [intros w r w' H; inversion H; reflexivity|].
  apply relates_bind;
    [exact (same_at_trans k) | intros w r w' H; inversion H; reflexivity |].
  intros _. apply relates_bind;
    [exact (same_at_trans k) | apply relates_pure; reflexivity |].
  intros [c|]; [|apply relates_pure; reflexivity].
  intros w r w' H. unfold same_at.
  replace w' with (write_file (posixpath.join dir filename) c w).2 by (rewrite H; reflexivity).
  destruct (write_file_run (posixpath.join dir filename) c w) as [-> | ->]; [reflexivity|].
  rewrite fs_log_event. cbn [fs with_fs]. apply node_at_insert_other. exact Hne.
Qed.

(** A download of an unreachable URL whose file is not on disk raises. *)
Lemma download_url_unreachable url dir filename w :
  length (posixpath.resolve dir) <
    length (posixpath.resolve (posixpath.join dir filename)) ->
  net w !! url = None ->
  (forall c, node_at (fs w) (posixpath.resolve (posixpath.join dir filename))
             <> Some (File c)) ->
  (download_url url dir filename w).1 <> Ok tt.
Proof.
  intros Hlen Hnet Hnofile. unfold download_url. unfold bind at 1.
  destruct (os_makedirs_exist_ok dir w) as [[u|e] w1] eqn:Hmk; [|discriminate].
  pose proof (os_makedirs_exist_ok_same_net dir w _ _ Hmk) as Hn1.
  pose proof (os_makedirs_exist_ok_same_at _ dir Hlen w _ _ Hmk) as Hs1.
  unfold same_net, same_at in *.
  unfold bind, os_path_isfile, gets, emit, modify. rewrite Hs1.
  destruct (node_at (fs w) _) as [[|c]|] eqn:Hnode;
    try (exfalso; exact (Hnofile c eq_refl));
    cbn [net log_event]; rewrite Hn1, Hnet; discriminate.
Qed.

Lemma fetch_loop_unreachable (dir : string) (l : list string) url w :
  In url l ->
  length (posixpath.resolve dir) <
    length (posixpath.resolve (posixpath.join dir (posixpath.rpartition_tail url))) ->
  (forall u, In u l -> u <> url ->
     posixpath.resolve (posixpath.join dir (posixpath.rpartition_tail u)) <>
     posixpath.resolve (posixpath.join dir (posixpath.rpartition_tail url))) ->
  net w !! url = None ->
  (forall c, node_at (fs w)
               (posixpath.resolve (posixpath.join dir (posixpath.rpartition_tail url)))
             <> Some (File c)) ->
  (for_each l (fun u => download_url u dir (posixpath.rpartition_tail u)) w).1 <> Ok tt.
Proof.
  intros Hin Hlen. revert w Hin.
  induction l as [|a l IH]; intros w Hin Hdist Hnet Hnofile; [destruct Hin|].
  cbn [for_each]. unfold bind.
  destruct (download_url a dir (posixpath.rpartition_tail a) w) as [[u|e] w1] eqn:Hb;
    [|discriminate].
  destruct (decide (a = url)) as [->|Hne].
  - exfalso.
    apply (download_url_unreachable url dir (posixpath.rpartition_tail url) w Hlen Hnet Hnofile).
    rewrite Hb. destruct u. reflexivity.
  - destruct Hin as [-> | Hin]; [congruence|].
    pose proof (download_url_same_net _ _ _ _ _ _ Hb) as Hn1.
    pose proof (download_url_same_at _ a dir (posixpath.rpartition_tail a) Hlen
                  (Hdist a (or_introl eq_refl) Hne) _ _ _ Hb) as Hs1.
    unfold same_net, same_at in *.
    apply IH; [exact Hin | | rewrite Hn1; exact Hnet | rewrite Hs1; exact Hnofile].
    intros v Hv. apply Hdist. right. exact Hv.
Qed.

Lemma resolve_raw_folder (self : SNIST) :
  posixpath.resolve (raw_folder self) = posixpath.resolve (root self) ++ ["SNIST"; "raw"].
Proof.
  unfold raw_folder, posixpath.join3. rewrite !resolve_join by reflexivity.
  rewrite <- app_assoc. reflexivity.
Qed.

Lemma resolve_processed_folder (self : SNIST) :
  posixpath.resolve (processed_folder self) =
    posixpath.resolve (root self) ++ ["SNIST"; "processed"].
Proof.
  unfold processed_folder, posixpath.join3. rewrite !resolve_join by reflexivity.
  rewrite <- app_assoc. reflexivity.
Qed.

Ltac eval_tails :=
  repeat match goal with
         | |- context [posixpath.rpartition_tail ?u] =>
             let v := eval vm_compute in (posixpath.rpartition_tail u) in
             change (posixpath.rpartition_tail u) with v
         end.

(** The raw file of each of the six URLs, resolved. *)
Lemma resolve_raw_url (self : SNIST) url :
  In url urls ->
  exists name,
    posixpath.resolve (posixpath.join (raw_folder self) (posixpath.rpartition_tail url)) =
      posixpath.resolve (root self) ++ ["SNIST"; "raw"; name].
Proof.
  unfold urls. cbn [In]. intros Hin.
  repeat (destruct Hin as [<- | Hin];
          [eval_tails; eexists; apply resolve_raw; reflexivity|]).
  destruct Hin.
Qed.

Lemma raw_urls_distinct (self : SNIST) u v :
  In u urls -> In v urls -> u <> v ->
  posixpath.resolve (posixpath.join (raw_folder self) (posixpath.rpartition_tail u)) <>
  posixpath.resolve (posixpath.join (raw_folder self) (posixpath.rpartition_tail v)).
Proof.
  unfold urls. cbn [In]. intros Hu Hv Hne.
  repeat (destruct Hu as [<- | Hu]);
    repeat (destruct Hv as [<- | Hv]);
    try contradiction; try congruence;
    eval_tails; rewrite !resolve_raw by reflexivity; distinct_keys.
Qed.

Lemma resolve_cache_entry (self : SNIST) path :
  In path (cache_entries self) ->
  exists name,
    posixpath.resolve path = posixpath.resolve (root self) ++ ["SNIST"; "processed"; name].
Proof.
  unfold cache_entries, training_file, test_file_noise_0, test_file_noise_1,
    test_file_noise_2. cbn [List.map In]. intros Hin.
  repeat (destruct Hin as [<- | Hin];
          [eexists; apply resolve_processed; reflexivity|]).
  destruct Hin.
Qed.

(** X18: a failed fetch aborts population before anything is cached.  If
    the cache is incomplete and one of the six URLs is unreachable while
    its raw file is not on disk, [download] raises, and every processed
    cache entry is exactly as it was before the call: no partition is
    written from a partial set of raw files. *)
Theorem download_unreachable_url (self : SNIST) w url :
  (_check_exists self w).1 = Ok false ->
  In url urls ->
  net w !! url = None ->
  (forall c, node_at (fs w)
               (posixpath.resolve
                  (posixpath.join (raw_folder self) (posixpath.rpartition_tail url)))
             <> Some (File c)) ->
  (exists e, (download self w).1 = Raise e) /\
  Forall (fun path => node_at (fs (download self w).2) (posixpath.resolve path) =
                      node_at (fs w) (posixpath.resolve path))
    (cache_entries self).
Proof.
  intros Hcheck Hin Hnet Hnofile. apply check_exists_fst in Hcheck.
  destruct (resolve_raw_url self url Hin) as [name Hkey].
  assert (Hlen : length (posixpath.resolve (raw_folder self)) <
                 length (posixpath.resolve
                   (posixpath.join (raw_folder self) (posixpath.rpartition_tail url))))
    by (rewrite Hkey, resolve_raw_folder, !length_app; cbn [length]; lia).
  (* the three steps before the conversions leave the cache entries and
     the missing raw file as they are *)
  assert (Hmk : forall k dirpath,
            length (posixpath.resolve (root self)) + 2 < length k ->
            dirpath = raw_folder self \/ dirpath = processed_folder self ->
            relates (same_at k) (makedir_exist_ok dirpath)).
  { intros k dirpath Hk [-> | ->]; apply makedir_exist_ok_same_at;
      rewrite ?resolve_raw_folder, ?resolve_processed_folder, length_app; cbn [length]; lia. }
  assert (Hloop : forall path, In path (cache_entries self) ->
            relates (same_at (posixpath.resolve path))
              (for_each urls (fun u =>
                 download_url u (raw_folder self) (posixpath.rpartition_tail u)))).
  { intros path Hpath. destruct (resolve_cache_entry self path Hpath) as [pname Hp].
    apply relates_for_each; [reflexivity | exact (same_at_trans _) |].
    intros u Hu. destruct (resolve_raw_url self u Hu) as [uname Hukey].
    apply download_url_same_at.
    - rewrite Hp, resolve_raw_folder, !length_app. cbn [length]. lia.
    - rewrite Hukey, Hp. distinct_keys. }
  assert (Hentry : forall path, In path (cache_entries self) ->
            length (posixpath.resolve (root self)) + 2 < length (posixpath.resolve path)).
  { intros path Hpath. destruct (resolve_cache_entry self path Hpath) as [pname ->].
    rewrite length_app. cbn [length]. lia. }
  destruct (download self w) as [r wf] eqn:Hd. cbn [fst snd].
  unfold download in Hd. rewrite (bind_ok _ _ _ _ _ Hcheck) in Hd.
  cbv beta iota in Hd. unfold bind at 1 in Hd.
  destruct (makedir_exist_ok (raw_folder self) w) as [[u1|e1] wa] eqn:Hraw.
  2:{ injection Hd as <- <-. split; [eexists; reflexivity|].
      apply List.Forall_forall. intros path Hpath.
      exact (Hmk _ _ (Hentry path Hpath) (or_introl eq_refl) _ _ _ Hraw). }
  unfold bind at 1 in Hd.
  destruct (makedir_exist_ok (processed_folder self) wa) as [[u2|e2] wb] eqn:Hproc.
  2:{ injection Hd as <- <-. split; [eexists; reflexivity|].
      apply List.Forall_forall. intros path Hpath.
      eapply same_at_trans.
      - exact (Hmk _ _ (Hentry path Hpath) (or_introl eq_refl) _ _ _ Hraw).
      - exact (Hmk _ _ (Hentry path Hpath) (or_intror eq_refl) _ _ _ Hproc). }
  unfold bind at 1 in Hd.
  change (for_each urls
            (fun url0 =>
               let filename := posixpath.rpartition_tail url0 in
               let file_path := posixpath.join (raw_folder self) filename in
               download_url url0 (raw_folder self) filename) wb)
    with (for_each urls
            (fun u => download_url u (raw_folder self) (posixpath.rpartition_tail u)) wb)
    in Hd.
  destruct (for_each urls _ wb) as [[u3|e3] wc] eqn:Hfetch.
  - exfalso.
    assert (Hkeylen : length (posixpath.resolve (root self)) + 2 <
              length (posixpath.resolve
                (posixpath.join (raw_folder self) (posixpath.rpartition_tail url))))
      by (rewrite Hkey, length_app; cbn [length]; lia).
    pose proof (Hmk _ _ Hkeylen (or_introl eq_refl) _ _ _ Hraw) as Ha.
    pose proof (Hmk _ _ Hkeylen (or_intror eq_refl) _ _ _ Hproc) as Hb.
    pose proof (makedir_exist_ok_same_net _ _ _ _ Hraw) as Hna.
    pose proof (makedir_exist_ok_same_net _ _ _ _ Hproc) as Hnb.
    unfold same_at, same_net in Ha, Hb, Hna, Hnb.
    apply (fetch_loop_unreachable (raw_folder self) urls url wb Hin Hlen).
    + intros v Hv Hne. apply raw_urls_distinct; assumption.
    + rewrite Hnb, Hna. exact Hnet.
    + rewrite Hb, Ha. exact Hnofile.
    + rewrite Hfetch. destruct u3. reflexivity.
  - injection Hd as <- <-. split; [eexists; reflexivity|].
    apply List.Forall_forall. intros path Hpath.
    eapply same_at_trans; [|eapply same_at_trans].
    + exact (Hmk _ _ (Hentry path Hpath) (or_introl eq_refl) _ _ _ Hraw).
    + exact (Hmk _ _ (Hentry path Hpath) (or_intror eq_refl) _ _ _ Hproc).
    + exact (Hloop path Hpath _ _ _ Hfetch).
Qed.

(** ** The printed form *)

Lemma lines_nonempty s : Str.lines s <> [].
Proof.
  destruct s as [|c s]; cbn [Str.lines]; [discriminate|].
  destruct (Ascii.eqb c Str.newline); [discriminate|].
  destruct (Str.lines s); discriminate.
Qed.

Lemma lines_app_newline a b :
  Str.lines (a +:+ String Str.newline b) = Str.lines a ++ Str.lines b.
Proof.
  induction a as [|c a IH]; [reflexivity|].
  rewrite append_cons. cbn [Str.lines].
  destruct (Ascii.eqb c Str.newline).
  - rewrite IH. reflexivity.
  - rewrite IH. pose proof (lines_nonempty a) as Hne.
    destruct (Str.lines a); [congruence | reflexivity].
Qed.

Lemma lines_then_newline a rest :
  Str.lines (a +:+ String Str.newline "" +:+ rest) = Str.lines a ++ Str.lines rest.
Proof. apply lines_app_newline. Qed.

Lemma lines_single_cons c a :
  Str.lines (String c a) = [String c a] ->
  Ascii.eqb c Str.newline = false /\ Str.lines a = [a].
Proof.
  cbn [Str.lines]. destruct (Ascii.eqb c Str.newline); [discriminate|].
  pose proof (lines_nonempty a) as Hne.
  destruct (Str.lines a) as [|x r]; [congruence|].
  intros H. injection H as -> ->. split; reflexivity.
Qed.

(** A text without a newline in front of another joins its first line. *)
Lemma lines_app_single a b :
  Str.lines a = [a] ->
  Str.lines (a +:+ b) =
    match Str.lines b with
    | first :: others => (a +:+ first) :: others
    | [] => [a]
    end.
Proof.
  induction a as [|c a IH]; intros Ha.
  - rewrite append_nil_l. pose proof (lines_nonempty b).
    destruct (Str.lines b); [congruence | reflexivity].
  - apply lines_single_cons in Ha as [Hc Ha].
    rewrite append_cons. cbn [Str.lines]. rewrite Hc, (IH Ha).
    pose proof (lines_nonempty b). destruct (Str.lines b); [congruence | reflexivity].
Qed.

Lemma lines_spaces n : Str.lines (Str.spaces n) = [Str.spaces n].
Proof. induction n as [|n IH]; [reflexivity|]. cbn. rewrite IH. reflexivity. Qed.

Lemma lines_replace_newline indent s :
  Str.lines indent = [indent] ->
  Str.lines (Str.replace_newline (String Str.newline indent) s) =
    match Str.lines s with
    | first :: others => first :: List.map (String.append indent) others
    | [] => []
    end.
Proof.
  intros Hindent. induction s as [|c s IH]; [reflexivity|].
  cbn [Str.replace_newline Str.lines].
  pose proof (lines_nonempty s) as Hne.
  destruct (Ascii.eqb c Str.newline) eqn:Hc.
  - rewrite append_cons. cbn [Str.lines]. rewrite Ascii.eqb_refl.
    rewrite (lines_app_single _ _ Hindent), IH.
    destruct (Str.lines s); [congruence | reflexivity].
  - cbn [Str.lines]. rewrite Hc, IH.
    destruct (Str.lines s); [congruence | reflexivity].
Qed.

Lemma pretty_N_char_plain (y : N) : Ascii.eqb (pretty_N_char y) Str.newline = false.
Proof. unfold pretty_N_char. repeat case_match; reflexivity. Qed.

Lemma lines_pretty_go (x : N) s : Str.lines s = [s] -> Str.lines (pretty_N_go x s) = [pretty_N_go x s].
Proof.
  revert s. induction (N.lt_wf_0 x) as [x _ IH]; intros s Hs.
  destruct (N.eq_dec x 0%N) as [->|Hx]; [rewrite pretty_N_go_0; exact Hs|].
  rewrite pretty_N_go_step by lia. apply IH; [apply N.div_lt; lia|].
  cbn [Str.lines]. rewrite pretty_N_char_plain, Hs. reflexivity.
Qed.

Lemma lines_of_nat n : Str.lines (Str.of_nat n) = [Str.of_nat n].
Proof.
  unfold Str.of_nat, pretty, pretty_nat, pretty, pretty_N.
  case_decide; [reflexivity|]. apply lines_pretty_go. reflexivity.
Qed.

Lemma lines_labelled label text :
  Str.lines label = [label] ->
  Str.lines
    (label +:+
     Str.replace_newline (String Str.newline "" +:+ Str.spaces (String.length label)) text)
  = labelled_block label text.
Proof.
  intros Hlabel. change (String Str.newline "" +:+ Str.spaces (String.length label))
    with (String Str.newline (Str.spaces (String.length label))).
  rewrite (lines_app_single _ _ Hlabel), (lines_replace_newline _ _ (lines_spaces _)).
  unfold labelled_block. pose proof (lines_nonempty text).
  destruct (Str.lines text); [congruence | reflexivity].
Qed.

(** X19: the printed form, line by line.  For a ready dataset of [N]
    samples whose root has no newline, [repr] is the four lines of the
    header (name, number of datapoints, split, root) followed by the text
    of each transform under its label: the first line of the text after
    the label, every further line indented by the width of the label, so
    that a transform printing several lines stays aligned. *)
Theorem repr_lines repr_callable (self : SNIST) (d : tensor) (N : nat) sd :
  data self = Some d -> shape d = N :: sd ->
  Str.lines (root self) = [root self] ->
  exists text,
    __repr__ repr_callable self = Ok text /\
    Str.lines text =
      [ "Dataset SNIST";
        "    Number of datapoints: " +:+ Str.of_nat N;
        "    Split: " +:+ (if train self then "train" else "test");
        "    Root Location: " +:+ root self ] ++
      labelled_block "    Transforms (if any): "
        (match transform self with Some g => repr_callable g | None => "None" end) ++
      labelled_block "    Target Transforms (if any): "
        (match target_transform self with Some g => repr_callable g | None => "None" end).
Proof.
  intros Hd Hshape Hroot.
  unfold __repr__, __len__, len. rewrite Hd. cbn [getattr rbind]. rewrite Hshape.
  cbn [rbind]. eexists. split; [reflexivity|].
  rewrite !append_assoc_string.
  rewrite <- (append_assoc_string "Dataset " "SNIST").
  rewrite <- (append_assoc_string "    Number of datapoints: " (Str.of_nat N)).
  rewrite <- (append_assoc_string "    Split: " (if train self then "train" else "test")).
  rewrite <- (append_assoc_string "    Root Location: " (root self)).
  rewrite <- (append_assoc_string "    Transforms (if any): "
                (Str.replace_newline _ _)).
  rewrite !lines_then_newline.
  rewrite !lines_labelled by reflexivity.
  rewrite (lines_app_single "    Number of datapoints: " _ eq_refl), lines_of_nat.
  rewrite (lines_app_single "    Split: " _ eq_refl).
  rewrite (lines_app_single "    Root Location: " _ eq_refl), Hroot.
  replace (Str.lines (if train self then "train" else "test"))
    with [if train self then "train" else "test"] by (destruct (train self); reflexivity).
  reflexivity.
Qed.

End Pipeline.

(** ** [get_int] *)

Lemma byte_digits (x : Byte.byte) acc rest :
  Codec.int_digits acc (Codec.hex_encode (x :: rest)) =
    Codec.int_digits (acc * 256 + byte_value x) (Codec.hex_encode rest).
Proof.
  assert (H : forall d1 d2 : Z,
    Codec.digit_value (Codec.hex_digit (Byte.to_N x / 16)) = Some d1 ->
    Codec.digit_value (Codec.hex_digit (Byte.to_N x mod 16)) = Some d2 ->
    (d1 * 16 + d2 = byte_value x)%Z -> 
    Codec.int_digits acc (Codec.hex_encode (x :: rest)) =
    Codec.int_digits (acc * 256 + byte_value x) (Codec.hex_encode rest)).
  { intros d1 d2 H1 H2 H3. cbn [Codec.hex_encode Codec.int_digits]. rewrite H1, H2.
    f_equal. lia. }
  destruct x; (eapply H; [reflexivity | reflexivity | reflexivity]).
Qed.

Lemma int_digits_encode b acc :
  Codec.int_digits acc (Codec.hex_encode b) =
    Ok (fold_left (fun a x => a * 256 + byte_value x)%Z b acc).
Proof.
  revert acc. induction b as [|x b IH]; intros acc; [reflexivity|].
  rewrite byte_digits, IH. reflexivity.
Qed.

Lemma get_int_cons x b : get_int (x :: b) = Ok (big_endian (x :: b)).
Proof.
  unfold get_int, Codec.int_base16, big_endian.
  change (Codec.hex_encode (x :: b)) with
    (String (Codec.hex_digit (Byte.to_N x / 16))
       (String (Codec.hex_digit (Byte.to_N x mod 16)) (Codec.hex_encode b))).
  change (String (Codec.hex_digit (Byte.to_N x / 16))
            (String (Codec.hex_digit (Byte.to_N x mod 16)) (Codec.hex_encode b)))
    with (Codec.hex_encode (x :: b)).
  apply int_digits_encode.
Qed.

Lemma get_int_ok_inv b v : get_int b = Ok v -> b <> [] /\ v = big_endian b.
Proof.
  destruct b as [|x b]; [discriminate|].
  rewrite get_int_cons. intros H. injection H as <-. split; [discriminate | reflexivity].
Qed.

Lemma byte_value_range x : (0 <= byte_value x < 256)%Z.
Proof. unfold byte_value. pose proof (Byte.to_N_bounded x). lia. Qed.

Lemma fold_big_endian b acc :
  fold_left (fun a x => a * 256 + byte_value x)%Z b acc =
    (acc * 256 ^ Z.of_nat (length b) + big_endian b)%Z.
Proof.
  unfold big_endian. revert acc.
  induction b as [|x b IH]; intros acc.
  - simpl. lia.
  - cbn [fold_left length]. rewrite IH, (IH (0 * 256 + byte_value x)%Z).
    rewrite Nat2Z.inj_succ, Z.pow_succ_r by lia. lia.
Qed.

Lemma big_endian_app b1 b2 :
  big_endian (b1 ++ b2) = (big_endian b1 * 256 ^ Z.of_nat (length b2) + big_endian b2)%Z.
Proof.
  unfold big_endian at 1. rewrite fold_left_app. rewrite fold_big_endian. reflexivity.
Qed.

Lemma big_endian_range b : (0 <= big_endian b < 256 ^ Z.of_nat (length b))%Z.
Proof.
  induction b as [|x b IH] using rev_ind.
  - simpl. unfold big_endian. simpl. lia.
  - rewrite big_endian_app, length_app. cbn [length].
    change (big_endian [x]) with (0 * 256 + byte_value x)%Z.
    pose proof (byte_value_range x).
    replace (Z.of_nat (length b + 1)) with (Z.succ (Z.of_nat (length b))) by lia.
    rewrite Z.pow_succ_r by lia. simpl Z.pow. nia.
Qed.

Lemma length_to_bytes n v : length (to_bytes n v) = n.
Proof.
  revert v. induction n as [|n IH]; intros v; [reflexivity|].
  cbn [to_bytes]. rewrite length_app, IH. simpl. lia.
Qed.

Lemma byte_of_value (r : Z) :
  (0 <= r < 256)%Z -> byte_value (default Byte.x00 (Byte.of_N (Z.to_N r))) = r.
Proof.
  intros Hr. unfold byte_value.
  destruct (Byte.of_N (Z.to_N r)) as [y|] eqn:Hy.
  - apply Byte.to_of_N in Hy. simpl. rewrite Hy. lia.
  - apply Byte.of_N_None_iff in Hy. lia.
Qed.

Lemma big_endian_to_bytes n v :
  (0 <= v < 256 ^ Z.of_nat n)%Z -> big_endian (to_bytes n v) = v.
Proof.
  revert v. induction n as [|n IH]; intros v Hv.
  - simpl in Hv. cbn. unfold big_endian. simpl. lia.
  - cbn [to_bytes]. rewrite big_endian_app. cbn [length].
    change (big_endian [default Byte.x00 (Byte.of_N (Z.to_N (v mod 256)))])
      with (0 * 256 + byte_value (default Byte.x00 (Byte.of_N (Z.to_N (v mod 256)))))%Z.
    rewrite byte_of_value by (apply Z.mod_pos_bound; lia).
    rewrite IH.
    + change (256 ^ Z.of_nat 1)%Z with 256%Z. pose proof (Z.div_mod v 256). lia.
    + rewrite Nat2Z.inj_succ, Z.pow_succ_r in Hv by lia.
      split; [apply Z.div_pos; lia | apply Z.div_lt_upper_bound; lia].
Qed.

Lemma to_bytes_big_endian b : to_bytes (length b) (big_endian b) = b.
Proof.
  induction b as [|x b IH] using rev_ind; [reflexivity|].
  rewrite length_app. cbn [length]. rewrite Nat.add_1_r. cbn [to_bytes].
  rewrite big_endian_app. cbn [length].
  change (256 ^ Z.of_nat 1)%Z with 256%Z.
  change (big_endian [x]) with (0 * 256 + byte_value x)%Z.
  pose proof (byte_value_range x) as Hx.
  replace ((big_endian b * 256 + (0 * 256 + byte_value x)) / 256)%Z with (big_endian b)
    by (apply Z.div_unique with (r := byte_value x); lia).
  replace ((big_endian b * 256 + (0 * 256 + byte_value x)) mod 256)%Z with (byte_value x)
    by (apply Z.mod_unique with (q := big_endian b); lia).
  rewrite IH. f_equal. f_equal. unfold byte_value. rewrite N2Z.id, Byte.of_to_N. reflexivity.
Qed.

(** X1: [get_int] of the empty byte string raises [ValueError]; of any
    other byte string it is the number the bytes denote, most significant
    byte first. *)
Theorem get_int_value (b : list Byte.byte) :
  get_int b = match b with [] => Raise ValueError | _ => Ok (big_endian b) end.
Proof. destruct b as [|x b]; [reflexivity | apply get_int_cons]. Qed.

(** X2: a value [get_int] returns for [n] bytes lies in [0, 256 ^ n). *)
Theorem get_int_range b v :
  get_int b = Ok v -> (0 <= v < 256 ^ Z.of_nat (length b))%Z.
Proof. intros H. apply get_int_ok_inv in H as [_ ->]. apply big_endian_range. Qed.

(** X3: [get_int] of a concatenation is the value of the first part
    shifted by the length of the second, plus the value of the second. *)
Theorem get_int_app b1 b2 v1 v2 :
  get_int b1 = Ok v1 -> get_int b2 = Ok v2 ->
  get_int (b1 ++ b2) = Ok (v1 * 256 ^ Z.of_nat (length b2) + v2)%Z.
Proof.
  intros H1 H2. apply get_int_ok_inv in H1 as [Hne ->]. apply get_int_ok_inv in H2 as [_ ->].
  destruct b1 as [|x b1]; [congruence|].
  change ((x :: b1) ++ b2) with (x :: (b1 ++ b2)). rewrite get_int_cons.
  change (x :: (b1 ++ b2)) with ((x :: b1) ++ b2). rewrite big_endian_app. reflexivity.
Qed.

(** X4: [get_int] decodes the big-endian encoding: for [n > 0] and
    [0 <= v < 256 ^ n], [get_int(v.to_bytes(n, 'big'))] is [v]. *)
Theorem get_int_to_bytes n v :
  (0 < n)%nat -> (0 <= v < 256 ^ Z.of_nat n)%Z -> get_int (to_bytes n v) = Ok v.
Proof.
  intros Hn Hv. pose proof (length_to_bytes n v) as Hlen.
  destruct (to_bytes n v) as [|x b] eqn:Hb; [simpl in Hlen; lia|].
  rewrite get_int_cons, <- Hb. f_equal. apply big_endian_to_bytes. exact Hv.
Qed.

(** X5: a byte string is recovered from its length and its [get_int]
    value; hence two byte strings of one length with the same value are
    equal. *)
Theorem to_bytes_get_int b v :
  get_int b = Ok v ->
  to_bytes (length b) v = b /\
  forall b', length b' = length b -> get_int b' = Ok v -> b' = b.
Proof.
  intros H. apply get_int_ok_inv in H as [_ ->]. split; [apply to_bytes_big_endian|].
  intros b' Hlen H'. apply get_int_ok_inv in H' as [_ H'].
  rewrite <- (to_bytes_big_endian b'), <- H', Hlen. apply to_bytes_big_endian.
Qed.

(** ** Concrete instances *)

Module Instances.

(** Raw arrays of naturals, float tensors of integers. *)
Definition cast : nat -> Z := Z.of_nat.

Definition amplitudes (k : nat) : array nat :=
  mk_array [2; 1; 2] [k; k + 1; k + 2; k + 3].

Definition velocities (k : nat) : array nat := mk_array [2] [k; k + 1].

Definition remote : gmap string (content (elt:=nat) (flt:=Z)) :=
  list_to_map
    (zip urls
       [Npy (amplitudes 0); Npy (velocities 10); Npy (amplitudes 20);
        Npy (velocities 30); Npy (amplitudes 40); Npy (amplitudes 50)]).

(** An empty disk with the six URLs reachable. *)
Definition fresh : world (elt:=nat) (flt:=Z) := mk_world ∅ remote "/home/u" [].

(** The instance as [__init__] has it when it calls [download]. *)
Definition blank : SNIST (flt:=Z) := mk_SNIST "/home/u/data" None None false None None.

(** The world after one population. *)
Definition populated : world (elt:=nat) (flt:=Z) := (download cast blank fresh).2.

(** The populated world with one cache entry removed. *)
Definition damaged : world (elt:=nat) (flt:=Z) :=
  with_fs
    (delete ["/"; "home"; "u"; "data"; "SNIST"; "processed"; "test_noise_1.pt"]
       (fs populated))
    populated.

(** A disk holding one raw array at [a.npy]. *)
Definition disk_with (a : array nat) : world (elt:=nat) (flt:=Z) :=
  mk_world (<[ ["a.npy"] := File (Npy a) ]> ∅) ∅ "/home/u" [].

Definition cube : array nat := mk_array [2; 2; 3] (seq 0 12).
Definition no_samples : array nat := mk_array [0; 2; 3] [].
Definition matrix : array nat := mk_array [2; 3] (seq 0 6).
Definition channels_last : array nat := mk_array [2; 3; 4; 1] (seq 0 24).
Definition two_channels : array nat := mk_array [2; 3; 4; 2] (seq 0 48).

(** A ready dataset of 100 samples: sample [i] is the 1x1x1 image [i]
    with target [100 + i]. *)
Definition hundred (f g : option (array Z -> pyobj (flt:=Z))) : SNIST (flt:=Z) :=
  mk_SNIST "/home/u/data" f g true
    (Some (mk_array [100; 1; 1; 1] (List.map Z.of_nat (seq 0 100))))
    (Some (mk_array [100] (List.map Z.of_nat (seq 100 100)))).

Definition double (t : array Z) : pyobj (flt:=Z) :=
  PyTensor (mk_array (shape t) (List.map (Z.mul 2) (elems t))).

Definition total (t : array Z) : pyobj (flt:=Z) :=
  PyInt (List.fold_right Z.add 0%Z (elems t)).

(** The test dataset with noise level 1 that the populated world yields. *)
Definition noisy : SNIST (flt:=Z) :=
  mk_SNIST "/home/u/data" None None false
    (Some (mk_array [2; 1; 1; 2] [40; 41; 42; 43]%Z))
    (Some (mk_array [2] [30; 31]%Z)).

End Instances.

(** ** The models on small inputs *)

Example join_cases :
  posixpath.join "data" "SNIST" = "data/SNIST" /\
  posixpath.join "data/" "SNIST" = "data/SNIST" /\
  posixpath.join "" "SNIST" = "SNIST" /\
  posixpath.join "data" "/tmp" = "/tmp".
Proof. repeat split. Qed.

Example rpartition_tail_cases :
  List.map posixpath.rpartition_tail urls =
    ["train_amplitudes.npy"; "train_velocities.npy"; "test_amplitudes.npy";
     "test_velocities.npy"; "test_amplitudes_noise_1.npy";
     "test_amplitudes_noise_2.npy"] /\
  posixpath.rpartition_tail "plain" = "plain" /\
  posixpath.rpartition_tail "dir/" = "".
Proof. repeat split. Qed.

Example expanduser_cases :
  posixpath.expanduser "/home/u/" "~/data" = "/home/u/data" /\
  posixpath.expanduser "/home/u" "~" = "/home/u" /\
  posixpath.expanduser "/" "~" = "/" /\
  posixpath.expanduser "/home/u" "~bob/data" = "~bob/data" /\
  posixpath.expanduser "/home/u" "data" = "data".
Proof. repeat split. Qed.

Example resolve_cases :
  posixpath.resolve "/home//u/./data/" = ["/"; "home"; "u"; "data"] /\
  posixpath.resolve "data/SNIST" = ["data"; "SNIST"] /\
  posixpath.resolve "" = [].
Proof. repeat split. Qed.

Example getitem_cases :
  let t := mk_array [2; 2] [1; 2; 3; 4]%Z in
  getitem t 1 = Ok (mk_array [2] [3; 4]%Z) /\
  getitem t (-1) = Ok (mk_array [2] [3; 4]%Z) /\
  getitem t (-2) = Ok (mk_array [2] [1; 2]%Z) /\
  getitem t 2 = Raise IndexError /\
  getitem t (-3) = Raise IndexError /\
  getitem t (2 ^ 63 - 1) = Raise IndexError /\
  getitem t (2 ^ 63) = Raise ValueError /\
  getitem t (- 2 ^ 63) = Raise IndexError /\
  getitem t (- 2 ^ 63 - 1) = Raise ValueError /\
  getitem (mk_array [] [7%Z]) 0 = Raise IndexError.
Proof. repeat split. Qed.

(** One population of an empty disk: directories, six fetches, eight
    loads, four writes. *)
Example population_trace :
  (download Instances.cast Instances.blank Instances.fresh).1 = Ok tt /\
  List.length (log Instances.populated) = 28 /\
  List.filter (fun e => match e with Write _ | Mkdir _ => true | _ => false end)
    (log Instances.populated) =
    [ Mkdir "/home/u/data/SNIST/raw";
      Mkdir "/home/u/data/SNIST/processed";
      Write "/home/u/data/SNIST/raw/train_amplitudes.npy";
      Write "/home/u/data/SNIST/raw/train_velocities.npy";
      Write "/home/u/data/SNIST/raw/test_amplitudes.npy";
      Write "/home/u/data/SNIST/raw/test_velocities.npy";
      Write "/home/u/data/SNIST/raw/test_amplitudes_noise_1.npy";
      Write "/home/u/data/SNIST/raw/test_amplitudes_noise_2.npy";
      Write "/home/u/data/SNIST/processed/training.pt";
      Write "/home/u/data/SNIST/processed/test_noise_0.pt";
      Write "/home/u/data/SNIST/processed/test_noise_1.pt";
      Write "/home/u/data/SNIST/processed/test_noise_2.pt" ].
Proof. repeat split; vm_compute; reflexivity. Qed.

(** C1, at a 2x2x3 array and at an array with no sample. *)
Lemma read_amplitude_file_shape_witness :
  read_amplitude_file Instances.cast "a.npy" (Instances.disk_with Instances.cube) =
    (Ok (mk_array [2; 1; 2; 3] [0; 1; 2; 3; 4; 5; 6; 7; 8; 9; 10; 11]%Z),
     log_event (NpLoad "a.npy") (Instances.disk_with Instances.cube)) /\
  read_amplitude_file Instances.cast "a.npy" (Instances.disk_with Instances.no_samples) =
    (Ok (mk_array [0; 1; 2; 3] []),
     log_event (NpLoad "a.npy") (Instances.disk_with Instances.no_samples)).
Proof.
  split.
  - apply (read_amplitude_file_shape Instances.cast "a.npy"
             (Instances.disk_with Instances.cube) Instances.cube 2 2 3);
      vm_compute; reflexivity.
  - apply (read_amplitude_file_shape Instances.cast "a.npy"
             (Instances.disk_with Instances.no_samples) Instances.no_samples 0 2 3);
      vm_compute; reflexivity.
Defined.

(** C4 does not hold as stated: a four-dimensional array whose last
    dimension has extent one is converted, not refused. *)
Lemma read_amplitude_file_ndim_counterexample :
  ndim Instances.channels_last = 4 /\
  (read_amplitude_file Instances.cast "a.npy" (Instances.disk_with Instances.channels_last)).1 =
    Ok (mk_array [2; 1; 3; 4] (List.map Z.of_nat (seq 0 24))).
Proof. split; vm_compute; reflexivity. Qed.

(** C4 as amended, at a matrix and at a 2x3x4x2 array. *)
Lemma read_amplitude_file_ndim_witness :
  (read_amplitude_file Instances.cast "a.npy" (Instances.disk_with Instances.matrix)).1 =
    Raise IndexError /\
  raised (read_amplitude_file Instances.cast "a.npy"
            (Instances.disk_with Instances.two_channels)).1.
Proof.
  split.
  - destruct (read_amplitude_file_ndim Instances.cast "a.npy"
                (Instances.disk_with Instances.matrix) Instances.matrix)
      as [Hfew _]; [vm_compute; reflexivity | vm_compute; lia |].
    apply Hfew. vm_compute. lia.
  - destruct (read_amplitude_file_ndim Instances.cast "a.npy"
                (Instances.disk_with Instances.two_channels) Instances.two_channels)
      as [_ Hmany]; [vm_compute; reflexivity | vm_compute; lia |].
    destruct (Hmany 2 3 4 [2] eq_refl) as [Hdiffer _].
    apply Hdiffer. vm_compute. lia.
Defined.

(** C2 does not hold as stated: with 100 samples, index -2 lies
    below -1 and outside 0..99, yet the read succeeds and returns sample
    98. *)
Lemma getitem_negative_index_counterexample :
  __len__ (Instances.hundred None None) = Ok 100 /\
  __getitem__ (Instances.hundred None None) (-2) =
    Ok (PyTensor (mk_array [1; 1; 1] [98%Z]), PyTensor (mk_array [] [198%Z])) /\
  ~ (forall i : Z, (i < 0 \/ 100 <= i)%Z ->
       __getitem__ (Instances.hundred None None) i = Raise IndexError).
Proof.
  split; [reflexivity|]. split; [vm_compute; reflexivity|].
  intros Hall. specialize (Hall (-2)%Z ltac:(lia)).
  vm_compute in Hall. discriminate Hall.
Qed.

(** C2 as amended, at the dataset of 100 samples. *)
Lemma len_getitem_bounds_witness :
  __len__ (Instances.hundred None None) = Ok 100 /\
  (exists item, __getitem__ (Instances.hundred None None) 0 = Ok item) /\
  (exists item, __getitem__ (Instances.hundred None None) 99 = Ok item) /\
  __getitem__ (Instances.hundred None None) (-100) =
    __getitem__ (Instances.hundred None None) 0 /\
  __getitem__ (Instances.hundred None None) 100 = Raise IndexError /\
  __getitem__ (Instances.hundred None None) (-101) = Raise IndexError /\
  __getitem__ (Instances.hundred None None) (2 ^ 63 - 1) = Raise IndexError /\
  __getitem__ (Instances.hundred None None) (2 ^ 63) = Raise ValueError /\
  __getitem__ (Instances.hundred None None) (- 2 ^ 63 - 1) = Raise ValueError.
Proof.
  destruct (len_getitem_bounds (Instances.hundred None None)
              (mk_array [100; 1; 1; 1] (List.map Z.of_nat (seq 0 100)))
              (mk_array [100] (List.map Z.of_nat (seq 100 100)))
              100 [1; 1; 1] [] eq_refl eq_refl eq_refl eq_refl)
    as (Hlen & Hin & Hneg & Hout).
  split; [exact Hlen|].
  split; [apply Hin; lia|].
  split; [apply Hin; lia|].
  split; [apply (Hneg (-100)%Z); lia|].
  split; [apply (Hout 100%Z); lia|].
  split; [apply (Hout (-101)%Z); lia|].
  split; [apply (Hout (2 ^ 63 - 1)%Z); lia|].
  split; [apply (Hout (2 ^ 63)%Z); lia|].
  apply (Hout (- 2 ^ 63 - 1)%Z); lia.
Defined.

(** C3, at sample 7 of the dataset of 100 samples, with two transforms
    and with none. *)
Lemma getitem_applies_transforms_witness :
  __getitem__ (Instances.hundred (Some Instances.double) (Some Instances.total)) 7 =
    Ok (PyTensor (mk_array [1; 1; 1] [14%Z]), PyInt 107) /\
  __getitem__ (Instances.hundred None None) 7 =
    Ok (PyTensor (mk_array [1; 1; 1] [7%Z]), PyTensor (mk_array [] [107%Z])).
Proof.
  split.
  - destruct (getitem_applies_transforms
                (Instances.hundred (Some Instances.double) (Some Instances.total))
                (mk_array [100; 1; 1; 1] (List.map Z.of_nat (seq 0 100)))
                (mk_array [100] (List.map Z.of_nat (seq 100 100)))
                100 [1; 1; 1] [] 7 eq_refl eq_refl eq_refl eq_refl ltac:(lia))
      as (x & y & Hx & Hy & Hboth & _).
    vm_compute in Hx, Hy. injection Hx as <-. injection Hy as <-.
    exact (Hboth Instances.double Instances.total eq_refl eq_refl).
  - destruct (getitem_applies_transforms
                (Instances.hundred None None)
                (mk_array [100; 1; 1; 1] (List.map Z.of_nat (seq 0 100)))
                (mk_array [100] (List.map Z.of_nat (seq 100 100)))
                100 [1; 1; 1] [] 7 eq_refl eq_refl eq_refl eq_refl ltac:(lia))
      as (x & y & Hx & Hy & _ & Hnone).
    vm_compute in Hx, Hy. injection Hx as <-. injection Hy as <-.
    exact (Hnone eq_refl eq_refl).
Defined.

(** C5, from an empty disk: the first call populates, the second call
    and any call on the populated world change nothing. *)
Lemma download_idempotent_witness :
  download Instances.cast Instances.blank Instances.populated = (Ok tt, Instances.populated) /\
  download Instances.cast Instances.blank (download Instances.cast Instances.blank Instances.fresh).2 =
    (Ok tt, (download Instances.cast Instances.blank Instances.fresh).2).
Proof.
  split.
  - apply (proj1 (download_idempotent Instances.cast Instances.blank Instances.populated)).
    vm_compute. reflexivity.
  - apply (proj2 (download_idempotent Instances.cast Instances.blank Instances.fresh)).
    vm_compute. reflexivity.
Defined.

(** C6, on a populated cache from which [test_noise_1.pt] was removed:
    the check answers false, and [download] rebuilds all four entries
    from the raw files. *)
Lemma check_exists_all_or_nothing_witness :
  _check_exists Instances.blank Instances.damaged = (Ok false, Instances.damaged) /\
  Forall (entry_present (download Instances.cast Instances.blank Instances.damaged).2)
    (cache_entries Instances.blank) /\
  List.map (fun entry =>
              node_at (fs (download Instances.cast Instances.blank Instances.damaged).2)
                (posixpath.resolve entry))
           (cache_entries Instances.blank) =
    [Some (File (Pt (mk_array [2; 1; 1; 2] [0; 1; 2; 3]%Z) (mk_array [2] [10; 11]%Z)));
     Some (File (Pt (mk_array [2; 1; 1; 2] [20; 21; 22; 23]%Z) (mk_array [2] [30; 31]%Z)));
     Some (File (Pt (mk_array [2; 1; 1; 2] [40; 41; 42; 43]%Z) (mk_array [2] [30; 31]%Z)));
     Some (File (Pt (mk_array [2; 1; 1; 2] [50; 51; 52; 53]%Z) (mk_array [2] [30; 31]%Z)))].
Proof.
  destruct (check_exists_all_or_nothing Instances.cast Instances.blank Instances.damaged)
    as (_ & _ & Hmissing).
  destruct (Hmissing "/home/u/data/SNIST/processed/test_noise_1.pt")
    as [Hfalse Hrebuild].
  - vm_compute. right. right. left. reflexivity.
  - vm_compute. intros [x Hx]. discriminate Hx.
  - split; [exact Hfalse|].
    destruct Hrebuild
      as (Hpresent & _ & ta & tv & a0 & a1 & a2 & v & Hta & Htv & Ha0 & Ha1 & Ha2 & Hv & Hentries);
      [vm_compute; reflexivity|].
    split; [exact Hpresent|].
    vm_compute in Hta, Htv, Ha0, Ha1, Ha2, Hv.
    injection Hta as <-. injection Htv as <-. injection Ha0 as <-.
    injection Ha1 as <-. injection Ha2 as <-. injection Hv as <-.
    exact Hentries.
Defined.

(** C7, on an empty disk with [download] false. *)
Lemma init_cache_missing_witness :
  __init__ Instances.cast "~/data" true 0 None None false Instances.fresh =
    (Raise (RuntimeError "Dataset not found. You can use download=True to download it"),
     Instances.fresh).
Proof.
  apply (init_cache_missing Instances.cast "~/data" true 0 None None false Instances.fresh);
    vm_compute; reflexivity.
Defined.

(** C8, from an empty disk: the three test datasets built on the
    populated world have one and the same target tensor. *)
Lemma test_partitions_share_targets_witness :
  exists v ds0 ds1 ds2,
    (__init__ Instances.cast "~/data" false 0 None None false Instances.populated).1 = Ok ds0 /\
    (__init__ Instances.cast "~/data" false 1 None None false Instances.populated).1 = Ok ds1 /\
    (__init__ Instances.cast "~/data" false 2 None None false Instances.populated).1 = Ok ds2 /\
    targets ds0 = Some v /\ targets ds1 = Some v /\ targets ds2 = Some v.
Proof.
  destruct (test_partitions_share_targets Instances.cast Instances.blank Instances.fresh)
    as (a0 & a1 & a2 & v & _ & _ & _ & _ & _ & _ & _ & Hinit);
    [vm_compute; reflexivity | vm_compute; reflexivity |].
  destruct (Hinit "~/data" 0%Z None None false eq_refl ltac:(lia)) as (ds0 & H0 & T0 & _).
  destruct (Hinit "~/data" 1%Z None None false eq_refl ltac:(lia)) as (ds1 & H1 & T1 & _).
  destruct (Hinit "~/data" 2%Z None None false eq_refl ltac:(lia)) as (ds2 & H2 & T2 & _).
  exists v, ds0, ds1, ds2. repeat split; assumption.
Defined.

(** C9, on the populated world with noise level 3. *)
Lemma init_unhandled_noise_witness :
  select_data_file false 3 = None /\
  __init__ Instances.cast "~/data" false 3 None None true Instances.populated =
    (Raise (UnboundLocalError "data_file"), Instances.populated).
Proof.
  apply (init_unhandled_noise Instances.cast "~/data" 3 None None true Instances.populated);
    [vm_compute; reflexivity | lia | lia | lia].
Defined.

(** C10, on the noise-1 test dataset of the populated world. *)
Lemma deprecated_aliases_witness :
  exists d t,
    data Instances.noisy = Some d /\ targets Instances.noisy = Some t /\
    forall w : world (elt:=nat) (flt:=Z),
      train_labels Instances.noisy w =
        (Ok t, log_event (Warn "train_labels has been renamed targets") w) /\
      test_labels Instances.noisy w =
        (Ok t, log_event (Warn "test_labels has been renamed targets") w) /\
      train_data Instances.noisy w =
        (Ok d, log_event (Warn "train_data has been renamed data") w) /\
      test_data Instances.noisy w =
        (Ok d, log_event (Warn "test_data has been renamed data") w).
Proof.
  apply (deprecated_aliases Instances.cast "~/data" false 1 None None false
           Instances.populated Instances.noisy).
  vm_compute. reflexivity.
Defined.

(** ** Further instances *)

Module Cases.

(** What [torch.load] says of an archive cut short. *)
Definition truncated_message : string :=
  "PytorchStreamReader failed reading zip archive: failed finding central directory".

(** The populated world with [test_noise_1.pt] cut short. *)
Definition corrupted : world (elt:=nat) (flt:=Z) :=
  with_fs
    (<[ ["/"; "home"; "u"; "data"; "SNIST"; "processed"; "test_noise_1.pt"] :=
          File (Blob (RuntimeError truncated_message)) ]>
       (fs Instances.populated))
    Instances.populated.

(** The populated world with [test_noise_1.pt] holding one tensor of two
    rows instead of a pair. *)
Definition single_tensor : world (elt:=nat) (flt:=Z) :=
  with_fs
    (<[ ["/"; "home"; "u"; "data"; "SNIST"; "processed"; "test_noise_1.pt"] :=
          File (PtTensor (mk_array [2; 3] [1; 2; 3; 4; 5; 6]%Z)) ]>
       (fs Instances.populated))
    Instances.populated.

(** An empty disk with no network. *)
Definition offline : world (elt:=nat) (flt:=Z) := mk_world ∅ ∅ "/home/u" [].

(** Three features, two targets. *)
Definition uneven : SNIST (flt:=Z) :=
  mk_SNIST "/home/u/data" None None true
    (Some (mk_array [3; 1] [10; 11; 12]%Z))
    (Some (mk_array [2] [20; 21]%Z)).

(** The text of a transform that prints on three lines. *)
Definition compose_text : string :=
  "Compose(" +:+ String Str.newline "    ToTensor()" +:+ String Str.newline ")".

End Cases.

(** X2, at three bytes. *)
Lemma get_int_range_witness : (0 <= 65791 < 256 ^ 3)%Z.
Proof.
  exact (get_int_range [Byte.x01; Byte.x00; Byte.xff] 65791 eq_refl).
Defined.

(** X3, at [01 00] followed by [ff]. *)
Lemma get_int_app_witness :
  get_int ([Byte.x01; Byte.x00] ++ [Byte.xff]) = Ok (256 * 256 ^ 1 + 255)%Z.
Proof.
  exact (get_int_app [Byte.x01; Byte.x00] [Byte.xff] 256 255 eq_refl eq_refl).
Defined.

(** X4, at 65791 on three bytes. *)
Lemma get_int_to_bytes_witness : get_int (to_bytes 3 65791) = Ok 65791%Z.
Proof. apply get_int_to_bytes; [lia | vm_compute; split; [discriminate | reflexivity]]. Defined.

(** X5, at [01 00 ff]. *)
Lemma to_bytes_get_int_witness :
  to_bytes 3 65791 = [Byte.x01; Byte.x00; Byte.xff].
Proof.
  exact (proj1 (to_bytes_get_int [Byte.x01; Byte.x00; Byte.xff] 65791 eq_refl)).
Defined.

(** X6, at a 2x3 matrix. *)
Lemma read_velocity_file_shape_witness :
  read_velocity_file Instances.cast "a.npy" (Instances.disk_with Instances.matrix) =
    (Ok (mk_array [2; 3] [0; 1; 2; 3; 4; 5]%Z),
     log_event (NpLoad "a.npy") (Instances.disk_with Instances.matrix)).
Proof.
  apply (read_velocity_file_shape Instances.cast "a.npy"
           (Instances.disk_with Instances.matrix) Instances.matrix).
  vm_compute. reflexivity.
Defined.

(** X7, at sample 5 of the dataset of 100 samples. *)
Lemma samples_well_formed_witness :
  exists x y : array Z,
    PyTensor (mk_array [1; 1; 1] [5%Z]) = PyTensor x /\
    PyTensor (mk_array [] [105%Z]) = PyTensor y /\
    shape x = [1; 1; 1] /\ well_formed x /\ shape y = [] /\ well_formed y.
Proof.
  apply (samples_well_formed (Instances.hundred None None)
           (mk_array [100; 1; 1; 1] (List.map Z.of_nat (seq 0 100)))
           (mk_array [100] (List.map Z.of_nat (seq 100 100))) 5);
    vm_compute; reflexivity.
Defined.

(** X8, with three features and two targets: [len] is 3, index 1 is
    read, index 2 raises [IndexError], and an index beyond 64 bits
    raises [ValueError]. *)
Lemma getitem_needs_both_witness :
  __len__ Cases.uneven = Ok 3 /\
  (exists item, __getitem__ Cases.uneven 1 = Ok item) /\
  __getitem__ Cases.uneven 2 = Raise IndexError /\
  __getitem__ Cases.uneven (2 ^ 64) = Raise ValueError.
Proof.
  destruct (getitem_needs_both Cases.uneven
              (mk_array [3; 1] [10; 11; 12]%Z) (mk_array [2] [20; 21]%Z)
              3 2 [1] [] eq_refl eq_refl eq_refl eq_refl) as [Hlen Hget].
  split; [exact Hlen|]. split; [|split].
  - apply (Hget 1%Z). lia.
  - apply (Hget 2%Z); lia.
  - apply (Hget (2 ^ 64)%Z); lia.
Defined.

(** X9, on the populated world: [train] true with noise level 7 loads
    the training entry. *)
Lemma init_loads_selected_entry_witness :
  (__init__ Instances.cast "~/data" true 7 None None true Instances.populated).1 =
    Ok (mk_SNIST "/home/u/data" None None true
          (Some (mk_array [2; 1; 1; 2] [0; 1; 2; 3]%Z))
          (Some (mk_array [2] [10; 11]%Z))).
Proof.
  rewrite (init_loads_selected_entry Instances.cast "~/data" true 7 None None true
             Instances.populated
             (mk_array [2; 1; 1; 2] [0; 1; 2; 3]%Z) (mk_array [2] [10; 11]%Z));
    [reflexivity | vm_compute; reflexivity | left; reflexivity | vm_compute; reflexivity].
Defined.

(** X10, on the populated world with [test_noise_1.pt] truncated, and
    with it replaced by one tensor of two rows: construction with
    [download] true raises the error of the load in the first case and
    succeeds in the second, as it does with [download] false. *)
Lemma init_corrupt_entry_witness :
  __init__ Instances.cast "~/data" false 1 None None true Cases.corrupted =
    __init__ Instances.cast "~/data" false 1 None None false Cases.corrupted /\
  (__init__ Instances.cast "~/data" false 1 None None true Cases.corrupted).1 =
    Raise (RuntimeError Cases.truncated_message) /\
  (__init__ Instances.cast "~/data" false 1 None None true Cases.single_tensor).1 =
    Ok (mk_SNIST "/home/u/data" None None false
          (Some (mk_array [3] [1; 2; 3]%Z)) (Some (mk_array [3] [4; 5; 6]%Z))).
Proof.
  destruct (init_corrupt_entry Instances.cast "~/data" false 1 None None true
              Cases.corrupted) as (Hflag & _ & Hblob & _);
    [vm_compute; reflexivity | right; lia |].
  split; [exact Hflag|]. split.
  - rewrite (Hblob (RuntimeError Cases.truncated_message)); [reflexivity|].
    vm_compute. reflexivity.
  - destruct (init_corrupt_entry Instances.cast "~/data" false 1 None None true
                Cases.single_tensor) as (_ & _ & _ & Hrows);
      [vm_compute; reflexivity | right; lia |].
    destruct (Hrows (mk_array [2; 3] [1; 2; 3; 4; 5; 6]%Z) [3])
      as (first & second & Hfirst & Hsecond & Hinit);
      [vm_compute; reflexivity | reflexivity |].
    vm_compute in Hfirst, Hsecond. injection Hfirst as <-. injection Hsecond as <-.
    rewrite Hinit. reflexivity.
Defined.

(** X12, from an empty disk with the URLs reachable. *)
Lemma init_download_training_witness :
  exists ds features labels,
    (__init__ Instances.cast "~/data" true 5 None None true Instances.fresh).1 = Ok ds /\
    data ds = Some features /\ targets ds = Some labels.
Proof.
  destruct (init_download_training Instances.cast "~/data" 5 None None Instances.fresh)
    as (ds & features & labels & Hinit & Hdata & Htargets & _);
    [vm_compute; reflexivity | vm_compute; reflexivity |].
  exists ds, features, labels. repeat split; assumption.
Defined.

(** X13, on the damaged cache: the raw training amplitudes survive the
    rebuild untouched. *)
Lemma download_keeps_other_nodes_witness :
  node_at (fs (download Instances.cast Instances.blank Instances.damaged).2)
    ["/"; "home"; "u"; "data"; "SNIST"; "raw"; "train_amplitudes.npy"] =
  Some (File (Npy (Instances.amplitudes 0))).
Proof.
  apply (download_keeps_other_nodes Instances.cast Instances.blank Instances.damaged).
  - vm_compute. reflexivity.
  - right. vm_compute. intros Hin.
    repeat (destruct Hin as [Heq | Hin]; [discriminate Heq|]). exact Hin.
Defined.

(** X14, on an empty disk. *)
Lemma makedir_exist_ok_idempotent_witness :
  entry_present (makedir_exist_ok "/home/u/data/SNIST/raw" Instances.fresh).2
    "/home/u/data/SNIST/raw" /\
  makedir_exist_ok "/home/u/data/SNIST/raw"
    (makedir_exist_ok "/home/u/data/SNIST/raw" Instances.fresh).2 =
    (Ok tt, (makedir_exist_ok "/home/u/data/SNIST/raw" Instances.fresh).2).
Proof.
  apply (makedir_exist_ok_idempotent "/home/u/data/SNIST/raw" Instances.fresh).
  vm_compute. reflexivity.
Defined.

(** X15, where [a.npy] is a regular file. *)
Lemma makedir_exist_ok_accepts_file_witness :
  makedir_exist_ok "a.npy" (Instances.disk_with Instances.cube) =
    (Ok tt, Instances.disk_with Instances.cube).
Proof.
  apply (makedir_exist_ok_accepts_file "a.npy" (Instances.disk_with Instances.cube)
           (Npy Instances.cube)).
  - vm_compute. reflexivity.
  - vm_compute. constructor.
Defined.

(** X16, under the regular file [a.npy]. *)
Lemma makedir_exist_ok_ancestor_file_witness :
  makedir_exist_ok "a.npy/SNIST/raw" (Instances.disk_with Instances.cube) =
    (Raise (OSError ENOTDIR), Instances.disk_with Instances.cube).
Proof.
  apply (makedir_exist_ok_ancestor_file "a.npy/SNIST/raw"
           (Instances.disk_with Instances.cube) ["a.npy"] (Npy Instances.cube)).
  - vm_compute. left. reflexivity.
  - vm_compute. reflexivity.
Defined.

(** X18, on an empty disk without network. *)
Lemma download_unreachable_url_witness :
  (exists e, (download Instances.cast Instances.blank Cases.offline).1 = Raise e) /\
  Forall (fun path =>
            node_at (fs (download Instances.cast Instances.blank Cases.offline).2)
              (posixpath.resolve path) =
            node_at (fs Cases.offline) (posixpath.resolve path))
    (cache_entries Instances.blank).
Proof.
  apply (download_unreachable_url Instances.cast Instances.blank Cases.offline
           "https://raw.githubusercontent.com/LukasMosser/SNIST/master/data/train/train_amplitudes.npy").
  - vm_compute. reflexivity.
  - left. reflexivity.
  - vm_compute. reflexivity.
  - intros c. vm_compute. discriminate.
Defined.

(** X19, with a transform that prints on three lines. *)
Lemma repr_lines_witness :
  exists text,
    __repr__ (fun _ => Cases.compose_text)
      (Instances.hundred (Some Instances.double) None) = Ok text /\
    Str.lines text =
      [ "Dataset SNIST";
        "    Number of datapoints: 100";
        "    Split: train";
        "    Root Location: /home/u/data";
        "    Transforms (if any): Compose(";
        "                             ToTensor()";
        "                         )";
        "    Target Transforms (if any): None" ].
Proof.
  destruct (repr_lines (fun _ => Cases.compose_text)
              (Instances.hundred (Some Instances.double) None)
              (mk_array [100; 1; 1; 1] (List.map Z.of_nat (seq 0 100))) 100 [1; 1; 1])
    as (text & Hrepr & Hlines); [reflexivity | reflexivity | reflexivity |].
  exists text. split; [exact Hrepr|]. rewrite Hlines. vm_compute. reflexivity.
Defined.
